(** * Kegbot web API client (python/kegbot/api/kbapi.py)

    A shallow embedding of the client: the error taxonomy, the envelope
    decoder [decode_response], and the [Client] class with its transport
    helper [_FetchResponse] and the typed operations built on it.

    Python values are embedded as the inductive [pyval]; a dict is a
    [gmap string pyval].  Python 2 [str] and [unicode] are both embedded as
    [string].  Exceptions are values of [exception]; code that may raise
    returns a [result].  Code that talks to the network runs in the monad
    [io], which threads the process state: the global flags, the outside
    world, and the log of the requests handed to the HTTP library. *)

From Stdlib Require Import ZArith String Ascii SpecFloat.
From Stdlib Require Import DecimalString DecimalPos DecimalZ.
From stdpp Require Import gmap strings list fin_maps.

Local Open Scope Z_scope.
Local Open Scope string_scope.

#[local] Set Warnings "-register-all".

(** ** Python values *)

Inductive pyval :=
  | VNone
  | VBool (b : bool)
  | VInt (z : Z)
  | VFloat (f : spec_float)
  | VStr (s : string)
  | VList (l : list pyval)
  | VDict (d : gmap string pyval).

(** Truth value of an object, as tested by [if x:]. *)
Definition truthy (v : pyval) : bool :=
  match v with
  | VNone => false
  | VBool b => b
  | VInt z => negb (Z.eqb z 0)
  | VFloat (S754_zero _) => false
  | VFloat _ => true
  | VStr s => negb (String.eqb s "")
  | VList l => match l with [] => false | _ => true end
  | VDict d => negb (bool_decide (d = ∅))
  end.

(** ** The error taxonomy *)

Inductive ErrorClass :=
  | Error
  | NotFoundError
  | ServerError
  | BadRequestError
  | NoAuthTokenError
  | BadApiKeyError
  | PermissionDeniedError.

#[global] Instance ErrorClass_eq_dec : EqDecision ErrorClass.
Proof. solve_decision. Defined.

Definition __name__ (c : ErrorClass) : string :=
  match c with
  | Error => "Error"
  | NotFoundError => "NotFoundError"
  | ServerError => "ServerError"
  | BadRequestError => "BadRequestError"
  | NoAuthTokenError => "NoAuthTokenError"
  | BadApiKeyError => "BadApiKeyError"
  | PermissionDeniedError => "PermissionDeniedError"
  end.

Definition __doc__ (c : ErrorClass) : string :=
  match c with
  | Error => "An error occurred."
  | NotFoundError => "The requested object could not be found."
  | ServerError => "The server had a problem fulfilling your request."
  | BadRequestError => "The request was incompleted or malformed."
  | NoAuthTokenError => "An api_key is required."
  | BadApiKeyError => "The api_key given is invalid."
  | PermissionDeniedError =>
      "The api_key given does not have permission for this resource."
  end.

Definition HTTP_CODE (c : ErrorClass) : Z :=
  match c with
  | Error => 400
  | NotFoundError => 404
  | ServerError => 500
  | BadRequestError => 401
  | NoAuthTokenError => 401
  | BadApiKeyError => 401
  | PermissionDeniedError => 401
  end.

(** [Error.__subclasses__()]: the direct subclasses, in definition order. *)
Definition __subclasses__ : list ErrorClass :=
  [NotFoundError; ServerError; BadRequestError; NoAuthTokenError;
   BadApiKeyError; PermissionDeniedError].

(** An exception instance of the taxonomy: its class and the single
    constructor argument, which [BaseException] stores as [message].  The
    argument is a Python value, or (in [GetToken]) another instance. *)
Inductive ErrorInstance :=
  | Raised (cls : ErrorClass) (message : ErrorArg)
with ErrorArg :=
  | ArgVal (v : pyval)
  | ArgErr (e : ErrorInstance).

Definition cls_of (e : ErrorInstance) : ErrorClass :=
  match e with Raised c _ => c end.

Definition message_of (e : ErrorInstance) : ErrorArg :=
  match e with Raised _ m => m end.

(** An exception instance defines neither [__nonzero__] nor [__len__]. *)
Definition truthy_arg (a : ErrorArg) : bool :=
  match a with
  | ArgVal v => truthy v
  | ArgErr _ => true
  end.

(** [m.split('\n', 1)[0]] *)
Fixpoint first_line (m : string) : string :=
  match m with
  | EmptyString => EmptyString
  | String c m' =>
      if Ascii.eqb c "010"%char then EmptyString else String c (first_line m')
  end.

Definition Message (self : ErrorInstance) : ErrorArg :=
  if truthy_arg (message_of self) then message_of self
  else
    let m := __doc__ (cls_of self) in
    let m := first_line m in
    ArgVal (VStr m).

(** ** Exceptions and results *)

(** What the HTTP library raises when it cannot deliver a response. *)
Inductive RequestException :=
  | ConnectionError (reason : string)
  | ConnectTimeout.

Inductive exception :=
  | ExcApi (e : ErrorInstance)
  | ValueError (msg : string)
  | AttributeError (msg : string)
  | TypeError (msg : string)
  | KeyError (key : string)
  | NameError (name : string)
  | ExcRequests (e : RequestException).

Inductive result (A : Type) :=
  | Return (a : A)
  | Raise (e : exception).
Arguments Return {A} a.
Arguments Raise {A} e.

#[global] Instance result_ret : MRet result := @Return.
#[global] Instance result_bind : MBind result := fun A B f r =>
  match r with
  | Return a => f a
  | Raise e => Raise e
  end.

(** ** Operations on Python values used by the decoder *)

Fixpoint str_contains (needle hay : string) : bool :=
  String.prefix needle hay ||
  match hay with
  | EmptyString => false
  | String _ hay' => str_contains needle hay'
  end.

(** [key in v] for a string [key]. *)
Definition py_contains (key : string) (v : pyval) : result bool :=
  match v with
  | VDict d => Return (bool_decide (is_Some (d !! key)))
  | VList l =>
      Return (existsb
                (fun x => match x with VStr s => String.eqb key s | _ => false end)
                l)
  | VStr s => Return (str_contains key s)
  | _ => Raise (TypeError "argument is not iterable")
  end.

(** [v[key]] for a string [key]. *)
Definition py_getitem (v : pyval) (key : string) : result pyval :=
  match v with
  | VDict d =>
      match d !! key with
      | Some x => Return x
      | None => Raise (KeyError key)
      end
  | VList _ => Raise (TypeError "list indices must be integers, not str")
  | VStr _ => Raise (TypeError "string indices must be integers")
  | _ => Raise (TypeError "object has no attribute '__getitem__'")
  end.

(** [v.get(key, dflt)]: only a dict has the method. *)
Definition py_get (v : pyval) (key : string) (dflt : pyval) : result pyval :=
  match v with
  | VDict d => Return (default dflt (d !! key))
  | _ => Raise (AttributeError "object has no attribute 'get'")
  end.

(** ** Mapping error codes to exceptions *)

Definition MAP_NAME_TO_EXCEPTION : gmap string ErrorClass :=
  list_to_map ((fun c => (__name__ c, c)) <$> __subclasses__).

(** [MAP_NAME_TO_EXCEPTION.get(code, Error)]: the key is hashed first, and
    a list or dict is unhashable; no other non-string equals a name. *)
Definition ErrorCodeToException (code : pyval) (message : pyval)
  : result ErrorInstance :=
  cls ← match code with
        | VStr s => Return (default Error (MAP_NAME_TO_EXCEPTION !! s))
        | VList _ => Raise (TypeError "unhashable type: 'list'")
        | VDict _ => Raise (TypeError "unhashable type: 'dict'")
        | _ => Return Error
        end;
  Return (Raised cls (ArgVal message)).

(** ** The envelope decoder *)

Record Response := { status_code : Z; text : string }.

Section Decoder.

(** [kbjson.loads] lives in another package: the decoder is parametric in
    it.  [None] stands for the [ValueError] raised on malformed JSON. *)
Variable loads : string -> option pyval.

Definition kbjson_loads (s : string) : result pyval :=
  match loads s with
  | Some v => Return v
  | None => Raise (ValueError "No JSON object could be decoded")
  end.

Definition decode_response (response : Response) : result pyval :=
  let status_code := response.(status_code) in
  response_dict ← kbjson_loads response.(text);
  has_error ← py_contains "error" response_dict;
  if has_error : bool then
    (* Response had an error: translate to exception. *)
    err ← py_getitem response_dict "error";
    code ← py_get err "code" (VInt status_code);
    message ← py_get err "message" VNone;
    e ← ErrorCodeToException code message;
    Raise (ExcApi e)
  else
    has_object ← py_contains "object" response_dict;
    has_result ← (if has_object : bool then Return true
                  else py_contains "objects" response_dict);
    if has_result : bool then
      (* Response was OK, return the result. *)
      Return response_dict
    else
      Raise (ValueError
               "Invalid response from server: missing result or error").

End Decoder.

(** ** Strings *)

Fixpoint in_chars (c : ascii) (chars : string) : bool :=
  match chars with
  | EmptyString => false
  | String c' chars' => Ascii.eqb c c' || in_chars c chars'
  end.

(** [s.lstrip(chars)] *)
Fixpoint lstrip (chars s : string) : string :=
  match s with
  | EmptyString => EmptyString
  | String c s' => if in_chars c chars then lstrip chars s' else s
  end.

(** [s.rstrip(chars)] *)
Fixpoint rstrip (chars s : string) : string :=
  match s with
  | EmptyString => EmptyString
  | String c s' =>
      match rstrip chars s' with
      | EmptyString => if in_chars c chars then EmptyString else String c EmptyString
      | r => String c r
      end
  end.

(** [s.strip(chars)] *)
Definition strip (chars s : string) : string := rstrip chars (lstrip chars s).

Definition whitespace : string :=
  String " " (String "009" (String "010" (String "011" (String "012"
    (String "013" EmptyString))))).

(** [int(s)] for a string: surrounding whitespace and one sign are
    accepted around a non-empty run of decimal digits. *)
Definition py_int (s : string) : result Z :=
  let t := strip whitespace s in
  let parsed :=
    match t with
    | String c digits =>
        if Ascii.eqb c "+"
        then option_map Decimal.Pos (NilZero.uint_of_string digits)
        else NilZero.int_of_string t
    | EmptyString => None
    end in
  match parsed with
  | Some d => Return (Z.of_int d)
  | None => Raise (ValueError "invalid literal for int() with base 10")
  end.

(** ** Dates *)

(** A [tzinfo]: the offset from UTC, in seconds east, and what [dst()]
    answers, [None] or an offset in seconds. *)
Record tzinfo := { utcoffset : Z; dst : option Z }.

(** A [datetime.datetime]: its wall-clock fields and its [tzinfo], which a
    naive one does not have. *)
Record datetime := {
  year : Z; month : Z; day : Z;
  hour : Z; minute : Z; second : Z; microsecond : Z;
  tz : option tzinfo
}.

(** The [struct tm] handed to the C library, less the two fields
    ([tm_wday], [tm_yday]) that [mktime] does not read. *)
Record struct_tm := {
  tm_year : Z; tm_mon : Z; tm_mday : Z;
  tm_hour : Z; tm_min : Z; tm_sec : Z;
  tm_isdst : Z
}.

(** [dt.timetuple()]: the wall-clock fields as they are; [tm_isdst] is -1
    when [dst()] is [None] (always so for a naive datetime), 1 when it is
    a non-zero offset and 0 when it is zero.  The offset from UTC is not
    part of it. *)
Definition timetuple (dt : datetime) : struct_tm :=
  {| tm_year := dt.(year); tm_mon := dt.(month); tm_mday := dt.(day);
     tm_hour := dt.(hour); tm_min := dt.(minute); tm_sec := dt.(second);
     tm_isdst := match dt.(tz) ≫= dst with
                 | None => -1
                 | Some d => if Z.eqb d 0 then 0 else 1
                 end |}.

Definition year_before_1900 : exception :=
  ValueError "the datetime strftime() methods require year >= 1900".

Section Strftime.

(** The C library's [mktime]: the seconds since the epoch of a broken-down
    time taken as local time of the process.  It depends on the time zone
    of the process and on the time zone database. *)
Variable mktime : struct_tm -> Z.

(** [dt.strftime('%s')]: the C library formats [%s] as the decimal of
    [mktime] of the fields; before that, Python 2 refuses any year before
    1900. *)
Definition strftime_s (dt : datetime) : result string :=
  if (dt.(year) <? 1900)%Z then Raise year_before_1900
  else
    Return (NilZero.string_of_int (Z.to_int (mktime (timetuple dt)))).

End Strftime.

(** ** Process-wide configuration *)

(** The optional [pykeg.settings] module; each attribute may be missing. *)
Record Settings := {
  KEGWEB_BASE_URL : option string;
  KEGWEB_API_KEY : option string
}.

(** [settings] is [None] when the import fails. *)
Definition _DEFAULT_URL (settings : option Settings) : string :=
  match settings ≫= KEGWEB_BASE_URL with
  | Some base => base ++ "/api/"
  | None => "http://localhost:8000/api/"
  end.

Definition _DEFAULT_KEY (settings : option Settings) : string :=
  match settings ≫= KEGWEB_API_KEY with
  | Some key => key
  | None => ""
  end.

(** The three flags defined by the module. *)
Record Flags := {
  api_timeout : spec_float;
  api_url : string;
  api_key : string
}.

(** The float [10.0] as an IEEE 754 double. *)
Definition float_10_0 : spec_float :=
  Eval vm_compute in binary_normalize 53 1024 10 0 false.

(** The values of the flags when the command line sets none of them. *)
Definition default_FLAGS (settings : option Settings) : Flags :=
  {| api_timeout := float_10_0;
     api_url := _DEFAULT_URL settings;
     api_key := _DEFAULT_KEY settings |}.

(** ** HTTP requests *)

Inductive Method := GET | POST.

(** The arguments of one call of [requests.get] or [requests.post]. *)
Record Request := {
  req_method : Method;
  req_url : string;
  req_params : pyval;
  req_data : option pyval;
  req_headers : gmap string string;
  req_timeout : spec_float
}.

(** ** The client *)

Record Client := { _api_url : string; _api_key : string }.

Definition _GetURL (self : Client) (endpoint : string) : string :=
  let base := rstrip "/" self.(_api_url) in
  let endpoint := strip "/" endpoint in
  base ++ "/" ++ endpoint.

Definition SetAuthToken (self : Client) (api_key : string) : Client :=
  {| _api_url := self.(_api_url); _api_key := api_key |}.

(** [obj.name] on a decoded value.  The dicts [kbjson.loads] returns expose
    their keys as attributes; a missing key, like any attribute the value
    does not have, raises [AttributeError]. *)
Definition py_getattr (v : pyval) (name : string) : result pyval :=
  match v with
  | VDict d =>
      match d !! name with
      | Some x => Return x
      | None => Raise (AttributeError name)
      end
  | _ => Raise (AttributeError name)
  end.

Section Transport.

(** The world outside the process: the network, the server and the clock.
    [http] is the HTTP library performing one request: it delivers a
    response or raises one of its own exceptions.  [now] reads the clock,
    as [datetime.datetime.now()] does; [mktime] is the C library's. *)
Variable World : Type.
Variable http : Request -> World -> (RequestException + Response) * World.
Variable now : World -> datetime.
Variable mktime : struct_tm -> Z.
Variable loads : string -> option pyval.

(** The state of the process: the flags (a module-level global), the world,
    and the requests handed to the HTTP library so far, oldest first. *)
Record Process := {
  FLAGS : Flags;
  world : World;
  sent : list Request
}.

Definition io (A : Type) : Type := Process -> result A * Process.

Definition io_ret {A} (a : A) : io A := fun p => (Return a, p).

Definition io_bind {A B} (m : io A) (f : A -> io B) : io B := fun p =>
  match m p with
  | (Return a, p') => f a p'
  | (Raise e, p') => (Raise e, p')
  end.

Definition lift {A} (r : result A) : io A := fun p => (r, p).

Notation "x <- m ;; k" := (io_bind m (fun x => k))
  (at level 100, m at next level, right associativity).

(** [try: body / except cls, e: handler(e)] for a class of the taxonomy:
    only instances of exactly that class are caught, as it has no
    subclasses of its own unless it is [Error]. *)
Definition isinstance (e : ErrorInstance) (cls : ErrorClass) : bool :=
  match cls with
  | Error => true
  | _ => bool_decide (cls_of e = cls)
  end.

Definition try_except {A} (body : io A) (cls : ErrorClass)
    (handler : ErrorInstance -> io A) : io A := fun p =>
  match body p with
  | (Raise (ExcApi e), p') =>
      if isinstance e cls then handler e p' else (Raise (ExcApi e), p')
  | other => other
  end.

Definition read_FLAGS : io Flags := fun p => (Return p.(FLAGS), p).

Definition datetime_now : io datetime := fun p => (Return (now p.(world)), p).

(** [Client(api_url, api_key)] *)
Definition __init__ (url key : option string) : io Client :=
  flags <- read_FLAGS;;
  let url := match url with None => flags.(api_url) | Some u => u end in
  let key := match key with None => flags.(api_key) | Some k => k end in
  io_ret {| _api_url := url; _api_key := key |}.

(** One call into the HTTP library. *)
Definition requests_call (req : Request) : io Response := fun p =>
  let '(r, w) := http req p.(world) in
  let p' := {| FLAGS := p.(FLAGS); world := w; sent := p.(sent) ++ [req] |} in
  match r with
  | inl e => (Raise (ExcRequests e), p')
  | inr response => (Return response, p')
  end.

Definition requests_post (url : string) (params data : pyval)
    (headers : gmap string string) (timeout : spec_float) : io Response :=
  requests_call {| req_method := POST; req_url := url; req_params := params;
                   req_data := Some data; req_headers := headers;
                   req_timeout := timeout |}.

Definition requests_get (url : string) (params : pyval)
    (headers : gmap string string) (timeout : spec_float) : io Response :=
  requests_call {| req_method := GET; req_url := url; req_params := params;
                   req_data := None; req_headers := headers;
                   req_timeout := timeout |}.

(** Issues a POST or GET request, depending on the arguments. *)
Definition _FetchResponse (self : Client) (endpoint : string)
    (params post_data : pyval) : io pyval :=
  let headers : gmap string string :=
    {[ "X-Kegbot-Api-Key" := self.(_api_key) ]} in
  let url := _GetURL self endpoint in
  r <- (if truthy post_data then
          flags <- read_FLAGS;;
          requests_post url params post_data headers flags.(api_timeout)
        else
          flags <- read_FLAGS;;
          requests_get url params headers flags.(api_timeout));;
  lift (decode_response loads r).

Definition DoGET (self : Client) (endpoint : string) (params : pyval)
  : io pyval :=
  _FetchResponse self endpoint params VNone.

Definition DoPOST (self : Client) (endpoint : string) (post_data : pyval)
    (params : pyval) : io pyval :=
  _FetchResponse self endpoint params post_data.

(** [unicode(s).encode('utf-8')]; [unicode] is the built-in conversion to
    text, and text is embedded in its UTF-8 encoding. *)
Variable py_unicode : pyval -> string.

Definition _Encode (s : pyval) : string := py_unicode s.

(** The argument of [urlencode] in [_EncodePostData]:
    [dict((k, self._Encode(v)) for k, v in post_data.iteritems()
          if v is not None)]. *)
Definition encoded_items (post_data : gmap string pyval) : gmap string string :=
  omap (fun v => match v with VNone => None | _ => Some (_Encode v) end)
       post_data.

(** [urlencode] is not bound in the module (nothing imports it), and the
    callee is evaluated before its argument: for any non-empty form the
    call raises [NameError].  No method calls [_EncodePostData]. *)
Definition _EncodePostData (post_data : pyval) : result (option string) :=
  if negb (truthy post_data) then Return None
  else Raise (NameError "urlencode").

(** ** Typed operations *)

Definition RecordDrink (self : Client) (tap_name : string) (ticks : Z)
    (volume_ml : option Z) (username : option string)
    (pour_time : option datetime) (duration : Z)
    (auth_token : option string) (spilled : bool) (shout : string)
  : io pyval :=
  let endpoint := "/taps/" ++ tap_name in
  let post_data : gmap string pyval :=
    <["ticks" := VInt ticks]> {[ "tap_name" := VStr tap_name ]} in
  let post_data :=
    match volume_ml with
    | Some v => <["volume_ml" := VInt v]> post_data
    | None => post_data
    end in
  let post_data :=
    match username with
    | Some u => <["username" := VStr u]> post_data
    | None => post_data
    end in
  let post_data :=
    if (duration >? 0)%Z then <["duration" := VInt duration]> post_data
    else post_data in
  let post_data :=
    match auth_token with
    | Some t => <["auth_token" := VStr t]> post_data
    | None => post_data
    end in
  let post_data :=
    if spilled then <["spilled" := VBool spilled]> post_data
    else post_data in
  let post_data :=
    if truthy (VStr shout) then <["shout" := VStr shout]> post_data
    else post_data in
  post_data <-
    match pour_time with
    | Some pt =>
        pt_text <- lift (strftime_s mktime pt);;
        pt_s <- lift (py_int pt_text);;
        let post_data := <["pour_time" := VInt pt_s]> post_data in
        t <- datetime_now;;
        now_text <- lift (strftime_s mktime t);;
        now_s <- lift (py_int now_text);;
        io_ret (<["now" := VInt now_s]> post_data)
    | None => io_ret post_data
    end;;
  r <- DoPOST self endpoint (VDict post_data) VNone;;
  lift (py_getattr r "object").

Definition CancelDrink (self : Client) (seqn : Z) (spilled : bool)
  : io pyval :=
  let endpoint := "/cancel-drink" in
  let post_data : gmap string pyval :=
    <["spilled" := VBool spilled]> {[ "id" := VInt seqn ]} in
  r <- DoPOST self endpoint (VDict post_data) VNone;;
  lift (py_getattr r "object").

(** [when] is accepted and not used. *)
Definition LogSensorReading (self : Client) (sensor_name : string)
    (temperature : spec_float) (when : option datetime) : io pyval :=
  let endpoint := "/thermo-sensors/" ++ sensor_name in
  let post_data : gmap string pyval := {[ "temp_c" := VFloat temperature ]} in
  r <- DoPOST self endpoint (VDict post_data) VNone;;
  lift (py_getattr r "object").

(** Gets the status of all taps. *)
Definition TapStatus (self : Client) : io pyval :=
  r <- DoGET self "taps" VNone;;
  lift (py_getattr r "objects").

Definition GetToken (self : Client) (auth_device token_value : string)
  : io pyval :=
  let url := "auth-tokens/" ++ auth_device ++ "/" ++ token_value in
  try_except
    (r <- DoGET self url VNone;;
     lift (py_getattr r "object"))
    ServerError
    (fun e => lift (Raise (ExcApi (Raised NotFoundError (ArgErr e))))).

(** Gets a list of all drinks. *)
Definition AllDrinks (self : Client) : io pyval :=
  r <- DoGET self "drinks" VNone;;
  lift (py_getattr r "objects").

Definition AllSoundEvents (self : Client) : io pyval :=
  r <- DoGET self "sound-events" VNone;;
  lift (py_getattr r "objects").

(** ** Sessions: a caller using one client for several calls *)

Inductive call :=
  | CallSetAuthToken (api_key : string)
  | CallDoGET (endpoint : string) (params : pyval)
  | CallDoPOST (endpoint : string) (post_data params : pyval)
  | CallRecordDrink (tap_name : string) (ticks : Z) (volume_ml : option Z)
      (username : option string) (pour_time : option datetime) (duration : Z)
      (auth_token : option string) (spilled : bool) (shout : string)
  | CallCancelDrink (seqn : Z) (spilled : bool)
  | CallLogSensorReading (sensor_name : string) (temperature : spec_float)
      (when : option datetime)
  | CallTapStatus
  | CallGetToken (auth_device token_value : string)
  | CallAllDrinks
  | CallAllSoundEvents.

(** One call on the client object: the client afterwards, the outcome of
    the call and the process afterwards. *)
Definition do_call (c : call) (self : Client) (p : Process)
  : Client * (result pyval * Process) :=
  match c with
  | CallSetAuthToken k => (SetAuthToken self k, (Return VNone, p))
  | CallDoGET ep params => (self, DoGET self ep params p)
  | CallDoPOST ep data params => (self, DoPOST self ep data params p)
  | CallRecordDrink tap ticks vol user pt dur tok sp sh =>
      (self, RecordDrink self tap ticks vol user pt dur tok sp sh p)
  | CallCancelDrink seqn sp => (self, CancelDrink self seqn sp p)
  | CallLogSensorReading name t w => (self, LogSensorReading self name t w p)
  | CallTapStatus => (self, TapStatus self p)
  | CallGetToken dev tok => (self, GetToken self dev tok p)
  | CallAllDrinks => (self, AllDrinks self p)
  | CallAllSoundEvents => (self, AllSoundEvents self p)
  end.

(** A caller that makes the calls in turn, going on after a call raises. *)
Fixpoint session (cs : list call) (self : Client) (p : Process)
  : Client * Process :=
  match cs with
  | [] => (self, p)
  | c :: cs' =>
      let '(self', (_, p')) := do_call c self p in
      session cs' self' p'
  end.

End Transport.

Arguments Process World : clear implicits.
Arguments FLAGS {World} _.
Arguments world {World} _.
Arguments sent {World} _.
Arguments io World A : clear implicits.
Arguments io_ret {World A} a _.
Arguments io_bind {World A B} m f _.
Arguments lift {World A} r _.
Arguments try_except {World A} body cls handler _.
Arguments read_FLAGS {World} _.
Arguments datetime_now {World} now _.
Arguments __init__ {World} url key _.
Arguments requests_call {World} http req _.
Arguments requests_post {World} http url params data headers timeout _.
Arguments requests_get {World} http url params headers timeout _.
Arguments _FetchResponse {World} http loads self endpoint params post_data _.
Arguments DoGET {World} http loads self endpoint params _.
Arguments DoPOST {World} http loads self endpoint post_data params _.
Arguments RecordDrink {World} http now mktime loads self tap_name ticks volume_ml
  username pour_time duration auth_token spilled shout _.
Arguments CancelDrink {World} http loads self seqn spilled _.
Arguments LogSensorReading {World} http loads self sensor_name temperature when _.
Arguments TapStatus {World} http loads self _.
Arguments GetToken {World} http loads self auth_device token_value _.
Arguments AllDrinks {World} http loads self _.
Arguments AllSoundEvents {World} http loads self _.
Arguments do_call {World} http now mktime loads c self p.
Arguments session {World} http now mktime loads cs self p.

(** * Specification-level definitions *)

Definition invalid_response : exception :=
  ValueError "Invalid response from server: missing result or error".

(** A value that can be used as a dict key: anything but a list or a dict. *)
Definition hashable (v : pyval) : bool :=
  match v with
  | VList _ | VDict _ => false
  | _ => true
  end.

(** The taxonomy as the table of kinds reads: a code names a kind, and any
    other code falls back to the generic kind. *)
Definition taxonomy (code : string) : ErrorClass :=
  if String.eqb code "NotFoundError" then NotFoundError
  else if String.eqb code "ServerError" then ServerError
  else if String.eqb code "BadRequestError" then BadRequestError
  else if String.eqb code "NoAuthTokenError" then NoAuthTokenError
  else if String.eqb code "BadApiKeyError" then BadApiKeyError
  else if String.eqb code "PermissionDeniedError" then PermissionDeniedError
  else Error.

(** The kind a code stands for; a code that is not a string names none. *)
Definition kind_of_code (code : pyval) : ErrorClass :=
  match code with
  | VStr s => taxonomy s
  | _ => Error
  end.

(** The default summaries of the table of kinds. *)
Definition default_summary (c : ErrorClass) : string :=
  match c with
  | Error => "An error occurred."
  | NotFoundError => "The requested object could not be found."
  | ServerError => "The server had a problem fulfilling your request."
  | BadRequestError => "The request was incompleted or malformed."
  | NoAuthTokenError => "An api_key is required."
  | BadApiKeyError => "The api_key given is invalid."
  | PermissionDeniedError =>
      "The api_key given does not have permission for this resource."
  end.

(** A double quote, for writing JSON text. *)
Definition dq (s : string) : string :=
  String "034" (s ++ String "034" EmptyString).

(** A [loads] that knows one body. *)
Definition loads_only (body : string) (v : pyval) (s : string) : option pyval :=
  if String.eqb s body then Some v else None.

(** ** Sample envelopes *)

(** [{"error": {"code": "NotFoundError"}}] *)
Definition env_not_found : gmap string pyval :=
  {[ "error" := VDict {[ "code" := VStr "NotFoundError" ]} ]}.

(** [{"object": 1, "objects": []}] *)
Definition env_both : gmap string pyval :=
  <[ "objects" := VList [] ]> {[ "object" := VInt 1 ]}.

(** [{"error": {"code": "NotFoundError", "message": ""}}] *)
Definition err_empty_message : gmap string pyval :=
  <[ "message" := VStr "" ]> {[ "code" := VStr "NotFoundError" ]}.

(** [{"error": {"code": "UnknownThing"}}] *)
Definition err_unknown_thing : gmap string pyval :=
  {[ "code" := VStr "UnknownThing" ]}.

(** [{"error": {"message": "gone"}}] *)
Definition err_no_code : gmap string pyval :=
  {[ "message" := VStr "gone" ]}.

(** The spec's shape of an error object: [code] and [message] are each a
    string or absent. *)
Definition error_shape (err : gmap string pyval) : Prop :=
  (err !! "code" = None \/ exists c, err !! "code" = Some (VStr c)) /\
  (err !! "message" = None \/ exists m, err !! "message" = Some (VStr m)).

(** ** Requests, seen from outside *)

(** The request the transport helper hands to the HTTP library, given the
    flags at the time of the call. *)
Definition request_of (flags : Flags) (self : Client) (endpoint : string)
    (params post_data : pyval) : Request :=
  {| req_method := if truthy post_data then POST else GET;
     req_url := _GetURL self endpoint;
     req_params := params;
     req_data := if truthy post_data then Some post_data else None;
     req_headers := {[ "X-Kegbot-Api-Key" := self.(_api_key) ]};
     req_timeout := flags.(api_timeout) |}.

(** The process after the HTTP library has performed [req]. *)
Definition after_request {World} (p : Process World) (req : Request)
    (w : World) : Process World :=
  {| FLAGS := p.(FLAGS); world := w; sent := p.(sent) ++ [req] |}.

(** A world in which no connection can be made. *)
Definition http_refused (req : Request) (w : unit)
  : (RequestException + Response) * unit :=
  (inl (ConnectionError "Connection refused"), w).

(** A world whose server answers every request with the same response. *)
Definition http_const (response : Response) (req : Request) (w : unit)
  : (RequestException + Response) * unit :=
  (inr response, w).

(** The days from 1970-01-01 to a date of the proleptic Gregorian
    calendar. *)
Definition days_from_civil (y m d : Z) : Z :=
  let y' := if (m <=? 2)%Z then y - 1 else y in
  let era := y' / 400 in
  let yoe := y' - era * 400 in
  let mp := (m + 9) mod 12 in
  let doy := (153 * mp + 2) / 5 + d - 1 in
  let doe := yoe * 365 + yoe / 4 - yoe / 100 + doy in
  era * 146097 + doe - 719468.

(** The seconds from the epoch to wall-clock fields read as UTC. *)
Definition seconds_from_civil (y m d hh mm ss : Z) : Z :=
  days_from_civil y m d * 86400 + hh * 3600 + mm * 60 + ss.

(** [mktime] in a process whose time zone is UTC (for a [tm_isdst] that
    is not positive: the zone has no daylight saving time). *)
Definition mktime_utc (tm : struct_tm) : Z :=
  seconds_from_civil tm.(tm_year) tm.(tm_mon) tm.(tm_mday)
    tm.(tm_hour) tm.(tm_min) tm.(tm_sec).

(** The instant a datetime denotes, in whole seconds since the epoch: an
    aware one is its fields at its own offset from UTC; a naive one is, by
    the convention of [datetime.now()], local time of the process. *)
Definition instant_seconds (mktime : struct_tm -> Z) (dt : datetime) : Z :=
  match dt.(tz) with
  | Some zone =>
      seconds_from_civil dt.(year) dt.(month) dt.(day)
        dt.(hour) dt.(minute) dt.(second) - zone.(utcoffset)
  | None => mktime (timetuple dt)
  end.

(** Whether [strftime] accepts the datetime. *)
Definition strftime_ok (dt : datetime) : bool := (1900 <=? dt.(year))%Z.

(** Whether [RecordDrink] gets past its two calls of [strftime]: it makes
    them only when it is given a [pour_time], on that and on the clock's
    reading [t]. *)
Definition dates_ok (pour_time : option datetime) (t : datetime) : bool :=
  match pour_time with
  | Some pt => strftime_ok pt && strftime_ok t
  | None => true
  end.

(** 1970-01-01 00:00:00, naive. *)
Definition epoch : datetime :=
  {| year := 1970; month := 1; day := 1; hour := 0; minute := 0; second := 0;
     microsecond := 0; tz := None |}.

(** 2010-11-04 16:41:28.250000, naive. *)
Definition a_pour_time : datetime :=
  {| year := 2010; month := 11; day := 4; hour := 16; minute := 41;
     second := 28; microsecond := 250000; tz := None |}.

(** 2010-11-04 17:41:28+01:00, aware: the same instant as [a_pour_time]
    has in a UTC process. *)
Definition an_aware_pour_time : datetime :=
  {| year := 2010; month := 11; day := 4; hour := 17; minute := 41;
     second := 28; microsecond := 0;
     tz := Some {| utcoffset := 3600; dst := Some 0 |} |}.

(** 1899-12-31 23:59:59, naive. *)
Definition an_old_pour_time : datetime :=
  {| year := 1899; month := 12; day := 31; hour := 23; minute := 59;
     second := 59; microsecond := 0; tz := None |}.

(** A fresh process with the default flags. *)
Definition fresh : Process unit :=
  {| FLAGS := default_FLAGS None; world := tt; sent := [] |}.

Definition local_client : Client :=
  {| _api_url := "http://localhost:8000/api/"; _api_key := "" |}.

(** ** URL joining, as the specification words it *)

(** Removes exactly one trailing slash, if there is one. *)
Fixpoint strip_one_trailing (s : string) : string :=
  match s with
  | EmptyString => EmptyString
  | String c EmptyString => if Ascii.eqb c "/" then EmptyString else s
  | String c s' => String c (strip_one_trailing s')
  end.

(** Removes exactly one leading slash, if there is one. *)
Definition strip_one_leading (s : string) : string :=
  match s with
  | String c s' => if Ascii.eqb c "/" then s' else s
  | EmptyString => EmptyString
  end.

Definition url_join_spec (base endpoint : string) : string :=
  strip_one_trailing base ++ "/"
    ++ strip_one_trailing (strip_one_leading endpoint).

(** [n] slashes. *)
Fixpoint slashes (n : nat) : string :=
  match n with
  | O => EmptyString
  | S n' => String "/" (slashes n')
  end.

Definition starts_with_slash (s : string) : bool :=
  match s with
  | String c _ => Ascii.eqb c "/"
  | EmptyString => false
  end.

Fixpoint ends_with_slash (s : string) : bool :=
  match s with
  | EmptyString => false
  | String c EmptyString => Ascii.eqb c "/"
  | String _ s' => ends_with_slash s'
  end.

(** ** The form of [RecordDrink], field by field *)

Fixpoint all_chars (P : ascii -> bool) (s : string) : bool :=
  match s with
  | EmptyString => true
  | String c s' => P c && all_chars P s'
  end.

(** Adds the field when there is a value for it. *)
Definition opt_insert (k : string) (o : option pyval)
    (m : gmap string pyval) : gmap string pyval :=
  match o with
  | Some v => <[k := v]> m
  | None => m
  end.

(** The fields: the two that are always there, then each optional one with
    the condition under which it is there; [t] is the clock's reading. *)
Definition drink_form (tap_name : string) (ticks : Z) (volume_ml : option Z)
    (username : option string) (pour_time : option datetime) (duration : Z)
    (auth_token : option string) (spilled : bool) (shout : string)
    (mktime : struct_tm -> Z) (t : datetime) : gmap string pyval :=
  opt_insert "now" ((fun _ => VInt (mktime (timetuple t))) <$> pour_time)
  (opt_insert "pour_time"
     ((fun pt => VInt (mktime (timetuple pt))) <$> pour_time)
  (opt_insert "shout" (if String.eqb shout "" then None else Some (VStr shout))
  (opt_insert "spilled" (if spilled then Some (VBool true) else None)
  (opt_insert "auth_token" (VStr <$> auth_token)
  (opt_insert "duration" (if (0 <? duration)%Z then Some (VInt duration) else None)
  (opt_insert "username" (VStr <$> username)
  (opt_insert "volume_ml" (VInt <$> volume_ml)
  (<["ticks" := VInt ticks]> {[ "tap_name" := VStr tap_name ]})))))))).

(** The names of the fields [RecordDrink] may send. *)
Definition drink_fields : list string :=
  ["tap_name"; "ticks"; "volume_ml"; "username"; "duration"; "auth_token";
   "spilled"; "shout"; "pour_time"; "now"].

(** The decimal digits. *)
Definition is_digit (c : ascii) : bool := in_chars c "0123456789".

(** ** Calls and the requests they issue *)

(** The request a call issues, under the flags [flags] and with the clock
    reading [t]; [SetAuthToken] issues none, and neither does a
    [RecordDrink] that [strftime] stops. *)
Definition call_request (mktime : struct_tm -> Z) (flags : Flags)
    (t : datetime) (self : Client) (c : call) : option Request :=
  match c with
  | CallSetAuthToken _ => None
  | CallDoGET ep params => Some (request_of flags self ep params VNone)
  | CallDoPOST ep data params => Some (request_of flags self ep params data)
  | CallRecordDrink tap ticks vol user pt dur tok sp sh =>
      if dates_ok pt t then
        Some (request_of flags self ("/taps/" ++ tap) VNone
                (VDict (drink_form tap ticks vol user pt dur tok sp sh
                          mktime t)))
      else None
  | CallCancelDrink seqn sp =>
      Some (request_of flags self "/cancel-drink" VNone
              (VDict (<["spilled" := VBool sp]> {[ "id" := VInt seqn ]})))
  | CallLogSensorReading name temp _ =>
      Some (request_of flags self ("/thermo-sensors/" ++ name) VNone
              (VDict {[ "temp_c" := VFloat temp ]}))
  | CallTapStatus => Some (request_of flags self "taps" VNone VNone)
  | CallGetToken dev tok =>
      Some (request_of flags self ("auth-tokens/" ++ dev ++ "/" ++ tok)
              VNone VNone)
  | CallAllDrinks => Some (request_of flags self "drinks" VNone VNone)
  | CallAllSoundEvents =>
      Some (request_of flags self "sound-events" VNone VNone)
  end.

Definition sets_key (c : call) : bool :=
  match c with
  | CallSetAuthToken _ => true
  | _ => false
  end.

(** The API key in force at each request of a session that starts with the
    key [key]. *)
Fixpoint keys_in_force (cs : list call) (key : string) : list string :=
  match cs with
  | [] => []
  | CallSetAuthToken k :: cs' => keys_in_force cs' k
  | _ :: cs' => key :: keys_in_force cs' key
  end.

(** The value of the API key header of a request, if it has the header. *)
Definition api_key_header (req : Request) : option string :=
  req.(req_headers) !! "X-Kegbot-Api-Key".

(** ** Sample worlds and values *)

(** A [loads] for which no body is JSON. *)
Definition loads_none (s : string) : option pyval := None.

(** The float [2.5]. *)
Definition float_2_5 : spec_float :=
  Eval vm_compute in binary_normalize 53 1024 5 (-1) false.

(** [fresh], started with [--api_timeout=2.5]. *)
Definition fresh_2_5 : Process unit :=
  {| FLAGS := {| api_timeout := float_2_5;
                 api_url := (default_FLAGS None).(api_url);
                 api_key := (default_FLAGS None).(api_key) |};
     world := tt; sent := [] |}.

(** [{"error": {"code": "ServerError", "message": "oops"}}] *)
Definition env_server_error : gmap string pyval :=
  {[ "error" := VDict (<[ "message" := VStr "oops" ]>
                         {[ "code" := VStr "ServerError" ]}) ]}.

(** The form [{'id': None, 'spilled': False}]. *)
Definition form_with_None : gmap string pyval :=
  <[ "spilled" := VBool false ]> {[ "id" := VNone ]}.

(** The value of a field of the form of the last request handed to the HTTP
    library, if that request has a form with the field. *)
Definition last_form_field {World} (p : Process World) (k : string)
  : option pyval :=
  match last p.(sent) ≫= req_data with
  | Some (VDict form) => form !! k
  | _ => None
  end.

(** ** The encoded body of a POST *)

(** Modelled from the spec: the url-encoding of the form, which happens
    inside [requests.post] and so is not in the source.  The spec says that
    every non-empty form value is stringified to UTF-8 text before
    encoding, and that [None] values are dropped from the encoded body, not
    sent as empty strings.  The encoded body is taken as the fields it
    carries, each with its text; the escaping of the text and the order of
    the fields are left out.  [text_of] is the conversion of a value to
    UTF-8 text. *)
Definition encoded_body (text_of : pyval -> string)
    (form : gmap string pyval) : gmap string string :=
  omap (fun v => match v with VNone => None | _ => Some (text_of v) end) form.

(** The encoded body of a request: a request without data has none; data
    that is a form is encoded. *)
Definition request_body (text_of : pyval -> string) (req : Request)
  : option (gmap string string) :=
  match req.(req_data) with
  | Some (VDict form) => Some (encoded_body text_of form)
  | _ => None
  end.

(** The text of the values of the sample forms: [None], booleans, integers
    and strings, as [str] gives it.  Nothing else is asked of it. *)
Definition sample_text (v : pyval) : string :=
  match v with
  | VNone => "None"
  | VBool true => "True"
  | VBool false => "False"
  | VInt z => NilZero.string_of_int (Z.to_int z)
  | VStr s => s
  | _ => ""
  end.

(** The timeout of the last request handed to the HTTP library. *)
Definition last_timeout {World} (p : Process World) : option spec_float :=
  req_timeout <$> last p.(sent).

(** ** Further vocabulary for the decoder *)

(** The JSON values that are neither a string nor a container. *)
Definition is_scalar (v : pyval) : bool :=
  match v with
  | VNone | VBool _ | VInt _ | VFloat _ => true
  | _ => false
  end.

Definition is_dict (v : pyval) : bool :=
  match v with
  | VDict _ => true
  | _ => false
  end.

(** [["object", 1]]: a JSON array that has the string [object] in it. *)
Definition array_with_object : list pyval := [VStr "object"; VInt 1].

(** [{"error": {"code": ["a"]}}] *)
Definition err_list_code : gmap string pyval :=
  {[ "code" := VList [VStr "a"] ]}.

(** The base URL of the web site the default API URL is built on. *)
Definition site_url (settings : option Settings) : string :=
  match settings ≫= KEGWEB_BASE_URL with
  | Some base => base
  | None => "http://localhost:8000"
  end.

(** ** Outcomes of calls *)

(** The entry of the envelope a call returns; the two generic calls return
    the envelope itself, and [SetAuthToken] receives none. *)
Definition call_projection (c : call) : option string :=
  match c with
  | CallSetAuthToken _ | CallDoGET _ _ | CallDoPOST _ _ _ => None
  | CallTapStatus | CallAllDrinks | CallAllSoundEvents => Some "objects"
  | _ => Some "object"
  end.

Definition project (c : call) (envelope : pyval) : result pyval :=
  match call_projection c with
  | Some field => py_getattr envelope field
  | None => Return envelope
  end.

Definition is_GetToken (c : call) : bool :=
  match c with
  | CallGetToken _ _ => true
  | _ => false
  end.

(** What a call makes of the outcome of decoding and projecting: only
    [GetToken] changes anything, and only a [ServerError]. *)
Definition reinterpret (c : call) (r : result pyval) : result pyval :=
  match r with
  | Raise (ExcApi e) =>
      if is_GetToken c && bool_decide (cls_of e = ServerError)
      then Raise (ExcApi (Raised NotFoundError (ArgErr e)))
      else r
  | _ => r
  end.

(** The outcome of a call. *)
Definition outcome {World} (x : Client * (result pyval * Process World))
  : result pyval := x.2.1.

(** [{"object": {"id": 7}}], a singular envelope. *)
Definition env_singular : gmap string pyval :=
  {[ "object" := VDict {[ "id" := VInt 7 ]} ]}.

(** ** Sessions, seen from outside *)

(** The key a client holds after the calls [cs], having started with
    [key]: the last one set. *)
Fixpoint final_key (cs : list call) (key : string) : string :=
  match cs with
  | [] => key
  | CallSetAuthToken k :: cs' => final_key cs' k
  | _ :: cs' => final_key cs' key
  end.

(** Whether the request of a call depends on the clock. *)
Definition reads_clock (c : call) : bool :=
  match c with
  | CallRecordDrink _ _ _ _ (Some _) _ _ _ _ => true
  | _ => false
  end.

(** A request either has no body and is a GET, or has a true-valued body
    and is a POST. *)
Definition well_formed_request (req : Request) : Prop :=
  match req.(req_data) with
  | None => req.(req_method) = GET
  | Some data => req.(req_method) = POST /\ truthy data = true
  end.

(** A session that touches every kind of call. *)
Definition sample_session : list call :=
  [CallTapStatus; CallSetAuthToken "k1"; CallCancelDrink 3 true;
   CallSetAuthToken "k2"; CallGetToken "core.rfid" "deadbeef";
   CallDoPOST "drinks" (VDict ∅) VNone].

(** Whether a call hands a request to the HTTP library, with the clock
    reading [t]: every call does but [SetAuthToken] and a [RecordDrink]
    that [strftime] stops. *)
Definition sends (c : call) (t : datetime) : bool :=
  match c with
  | CallSetAuthToken _ => false
  | CallRecordDrink _ _ _ _ pt _ _ _ _ => dates_ok pt t
  | _ => true
  end.

(** * Proofs *)

(** ** The helpers on small inputs *)

Example rstrip_all_trailing : rstrip "/" "http://x/api//" = "http://x/api".
Proof. reflexivity. Qed.

Example strip_both_ends : strip "/" "//taps/status/" = "taps/status".
Proof. reflexivity. Qed.

Example first_line_of_two :
  first_line (String "a" (String "010" "b")) = "a".
Proof. reflexivity. Qed.

Example py_int_accepts :
  py_int " 42 " = Return 42 /\ py_int "+7" = Return 7
  /\ py_int "-120" = Return (-120) /\ py_int "007" = Return 7.
Proof. by repeat split. Qed.

Example py_int_rejects :
  forall s, s ∈ [""; "+"; "-"; "4 2"; "+-4"; "0x10"; "1.5"] ->
    py_int s = Raise (ValueError "invalid literal for int() with base 10").
Proof.
  intros s Hs.
  repeat (apply elem_of_cons in Hs as [->|Hs]; [done|]).
  by apply elem_of_nil in Hs.
Qed.

Example seconds_from_civil_examples :
  seconds_from_civil 1970 1 1 0 0 0 = 0
  /\ seconds_from_civil 2010 11 4 16 41 28 = 1288888888
  /\ seconds_from_civil 2000 2 29 0 0 0 = 951782400
  /\ seconds_from_civil 1899 12 31 23 59 59 = -2208988801.
Proof. by repeat split. Qed.

Example strftime_s_examples :
  strftime_s mktime_utc a_pour_time = Return "1288888888"
  /\ strftime_s mktime_utc an_aware_pour_time = Return "1288892488"
  /\ exists msg, strftime_s mktime_utc an_old_pour_time = Raise (ValueError msg).
Proof. split; [done|]. split; [done|]. by eexists. Qed.

Example MAP_NAME_TO_EXCEPTION_names :
  MAP_NAME_TO_EXCEPTION !! "NotFoundError" = Some NotFoundError
  /\ MAP_NAME_TO_EXCEPTION !! "Error" = None
  /\ MAP_NAME_TO_EXCEPTION !! "404" = None.
Proof. by repeat split. Qed.

Lemma first_line_doc c : first_line (__doc__ c) = default_summary c.
Proof. by destruct c. Qed.

Lemma bind_Return {A B} (f : A -> result B) (a : A) :
  mbind f (Return a) = f a.
Proof. reflexivity. Qed.

Lemma bind_Raise {A B} (f : A -> result B) (e : exception) :
  mbind f (Raise e) = Raise e.
Proof. reflexivity. Qed.

(** The reflective name-to-class map is the table of the taxonomy. *)
Lemma MAP_NAME_TO_EXCEPTION_taxonomy (s : string) :
  default Error (MAP_NAME_TO_EXCEPTION !! s) = taxonomy s.
Proof.
  unfold MAP_NAME_TO_EXCEPTION, taxonomy, __subclasses__.
  cbn [fmap list_fmap __name__ list_to_map foldr uncurry fst snd].
  repeat (match goal with
  | |- context [String.eqb s ?n] =>
      destruct (String.eqb_spec s n) as [->|?];
      [ by vm_compute | rewrite lookup_insert_ne by congruence ]
  end).
  by rewrite lookup_empty.
Qed.

Lemma ErrorCodeToException_hashable (code message : pyval) :
  hashable code = true ->
  ErrorCodeToException code message
  = Return (Raised (kind_of_code code) (ArgVal message)).
Proof.
  unfold ErrorCodeToException.
  destruct code; try discriminate; intros _; cbn; try reflexivity.
  by rewrite MAP_NAME_TO_EXCEPTION_taxonomy.
Qed.

(** The three branches of the decoder, once the body has parsed to a dict. *)
Lemma decode_response_dict loads response (d : gmap string pyval) :
  loads response.(text) = Some (VDict d) ->
  decode_response loads response =
  match d !! "error" with
  | Some err =>
      code ← py_get err "code" (VInt response.(status_code));
      message ← py_get err "message" VNone;
      e ← ErrorCodeToException code message;
      Raise (ExcApi e)
  | None =>
      match d !! "object", d !! "objects" with
      | None, None => Raise invalid_response
      | _, _ => Return (VDict d)
      end
  end.
Proof.
  intros Hl. unfold decode_response, kbjson_loads. rewrite Hl.
  rewrite bind_Return. cbn [py_contains]. rewrite bind_Return.
  destruct (d !! "error") as [err|] eqn:He.
  - rewrite bool_decide_true by eauto. cbn [py_getitem]. by rewrite He.
  - rewrite bool_decide_false by (intros [? ?]; done).
    rewrite bind_Return.
    destruct (d !! "object") as [o|] eqn:Ho.
    + rewrite bool_decide_true by eauto. reflexivity.
    + rewrite bool_decide_false by (intros [? ?]; done).
      rewrite bind_Return.
      destruct (d !! "objects") as [os|] eqn:Hos.
      * rewrite bool_decide_true by eauto. reflexivity.
      * rewrite bool_decide_false by (intros [? ?]; done). reflexivity.
Qed.

(** An error object with a usable code raises the kind the code names. *)
Lemma decode_response_error loads response (d err : gmap string pyval) :
  loads response.(text) = Some (VDict d) ->
  d !! "error" = Some (VDict err) ->
  hashable (default (VInt response.(status_code)) (err !! "code")) = true ->
  decode_response loads response =
  Raise (ExcApi (Raised
    (kind_of_code (default (VInt response.(status_code)) (err !! "code")))
    (ArgVal (default VNone (err !! "message"))))).
Proof.
  intros Hl He Hh. rewrite (decode_response_dict _ _ _ Hl), He.
  cbn [py_get]. rewrite !bind_Return.
  by rewrite ErrorCodeToException_hashable.
Qed.

Example decode_singular :
  decode_response
    (loads_only "o" (VDict {[ "object" := VDict {[ "a" := VInt 1 ]} ]}))
    {| status_code := 200; text := "o" |}
  ≫= (fun r => py_getattr r "object")
  = Return (VDict {[ "a" := VInt 1 ]}).
Proof. vm_compute. reflexivity. Qed.

Example decode_plural :
  decode_response
    (loads_only "o" (VDict {[ "objects" := VList [VInt 1; VInt 2] ]}))
    {| status_code := 200; text := "o" |}
  ≫= (fun r => py_getattr r "objects")
  = Return (VList [VInt 1; VInt 2]).
Proof. vm_compute. reflexivity. Qed.

Example decode_not_found_gone :
  decode_response
    (loads_only "e"
       (VDict {[ "error" := VDict (<[ "message" := VStr "gone" ]>
                                     {[ "code" := VStr "NotFoundError" ]}) ]}))
    {| status_code := 404; text := "e" |}
  = Raise (ExcApi (Raised NotFoundError (ArgVal (VStr "gone")))).
Proof. vm_compute. reflexivity. Qed.

Example decode_malformed :
  decode_response loads_none {| status_code := 200; text := "<html>" |}
  = Raise (ValueError "No JSON object could be decoded").
Proof. reflexivity. Qed.

Lemma taxonomy_unknown (c : string) :
  c ∉ (__name__ <$> __subclasses__) -> taxonomy c = Error.
Proof.
  intros Hc. unfold taxonomy.
  repeat (match goal with
  | |- context [String.eqb c ?n] =>
      destruct (String.eqb_spec c n) as [->|?];
      [ exfalso; apply Hc; cbn; set_solver | ]
  end).
  reflexivity.
Qed.

(** ** C1: the three branches of the decoder *)

(** C1, as stated, fails: the body [{"error": "boom"}] parses as a JSON
    object that has the key [error], and decoding it raises
    [AttributeError] (a string has no [get]), not an error of the
    taxonomy. *)
Lemma C1_error_value_not_an_object :
  let d : gmap string pyval := {[ "error" := VStr "boom" ]} in
  let body := "{" ++ dq "error" ++ ": " ++ dq "boom" ++ "}" in
  let response := {| status_code := 500; text := body |} in
  let loads := loads_only body (VDict d) in
  loads response.(text) = Some (VDict d) /\
  is_Some (d !! "error") /\
  decode_response loads response
    = Raise (AttributeError "object has no attribute 'get'") /\
  ~ (exists e, decode_response loads response = Raise (ExcApi e)).
Proof.
  cbv zeta. split; [reflexivity|]. split; [by eexists|].
  assert (Hd : decode_response
            (loads_only ("{" ++ dq "error" ++ ": " ++ dq "boom" ++ "}")
               (VDict {["error" := VStr "boom"]}))
            {| status_code := 500;
               text := "{" ++ dq "error" ++ ": " ++ dq "boom" ++ "}" |}
          = Raise (AttributeError "object has no attribute 'get'")).
  { erewrite decode_response_dict by reflexivity.
    by rewrite lookup_singleton_eq. }
  split; [exact Hd|]. intros [e He]. rewrite Hd in He. discriminate.
Qed.

(** C1 (amended): for every body that parses as a JSON object, if the
    object has the key [error] and its value is itself an object whose
    code (the [code] entry, else the status) is not an array or object,
    decoding raises an error of the taxonomy; otherwise, if the object has
    the key [object] or [objects], decoding returns the whole parsed
    envelope unchanged; otherwise it raises the [ValueError] for an
    invalid response, which is not an error of the taxonomy. *)
Theorem C1_decode_trichotomy loads response (d : gmap string pyval) :
  loads response.(text) = Some (VDict d) ->
  (forall err : gmap string pyval,
      d !! "error" = Some (VDict err) ->
      hashable (default (VInt response.(status_code)) (err !! "code")) = true ->
      exists e, decode_response loads response = Raise (ExcApi e))
  /\ (d !! "error" = None ->
      is_Some (d !! "object") \/ is_Some (d !! "objects") ->
      decode_response loads response = Return (VDict d))
  /\ (d !! "error" = None -> d !! "object" = None -> d !! "objects" = None ->
      decode_response loads response = Raise invalid_response
      /\ forall e, invalid_response <> ExcApi e).
Proof.
  intros Hl. split; [|split].
  - intros err He Hh. eexists. by apply (decode_response_error _ _ d err).
  - intros He Ho. rewrite (decode_response_dict _ _ _ Hl), He.
    destruct Ho as [[o Ho]|[os Hos]].
    + by rewrite Ho.
    + rewrite Hos. by destruct (d !! "object").
  - intros He Ho Hos. split; [|done].
    by rewrite (decode_response_dict _ _ _ Hl), He, Ho, Hos.
Qed.

(** The three branches at [{"error": {"code": "NotFoundError"}}],
    [{"object": 1, "objects": []}] and [{}]. *)
Lemma C1_decode_trichotomy_witness :
  (exists e,
     decode_response (loads_only "e" (VDict env_not_found))
       {| status_code := 404; text := "e" |} = Raise (ExcApi e))
  /\ decode_response (loads_only "o" (VDict env_both))
       {| status_code := 200; text := "o" |}
     = Return (VDict env_both)
  /\ decode_response (loads_only "{}" (VDict ∅))
       {| status_code := 200; text := "{}" |} = Raise invalid_response.
Proof.
  split; [|split].
  - refine (proj1 (C1_decode_trichotomy
      (loads_only "e" (VDict env_not_found))
      {| status_code := 404; text := "e" |} env_not_found eq_refl)
      {[ "code" := VStr "NotFoundError" ]} _ _); reflexivity.
  - refine (proj1 (proj2 (C1_decode_trichotomy
      (loads_only "o" (VDict env_both))
      {| status_code := 200; text := "o" |} env_both eq_refl)) _ _);
      [reflexivity | left; eexists; reflexivity].
  - refine (proj1 (proj2 (proj2 (C1_decode_trichotomy
      (loads_only "{}" (VDict ∅))
      {| status_code := 200; text := "{}" |} ∅ eq_refl)) _ _ _)); reflexivity.
Defined.

(** ** C2: the kind and the message of the raised error *)

(** C2, as stated, fails: [{"error": {"code": "NotFoundError",
    "message": ""}}] has the shape of an error envelope and its message is
    present, but the error raised answers [Message()] with the default
    summary of its kind, not with the server's (empty) message. *)
Lemma C2_empty_message_replaced :
  let response := {| status_code := 404; text := "e" |} in
  let loads := loads_only "e" (VDict {[ "error" := VDict err_empty_message ]}) in
  let e := Raised NotFoundError (ArgVal (VStr "")) in
  error_shape err_empty_message /\
  err_empty_message !! "message" = Some (VStr "") /\
  decode_response loads response = Raise (ExcApi e) /\
  Message e = ArgVal (VStr "The requested object could not be found.") /\
  Message e <> ArgVal (VStr "").
Proof.
  cbv zeta. split; [|split; [reflexivity|split; [|split; [reflexivity|done]]]].
  - split; right; eexists; reflexivity.
  - etrans.
    + apply (decode_response_error _ _ {[ "error" := VDict err_empty_message ]}
               err_empty_message); reflexivity.
    + reflexivity.
Qed.

(** C2 (amended): for every error envelope, the kind of the raised error
    is the one the taxonomy gives the envelope's [code], every code that
    is not the name of a kind (and an absent code) giving the generic
    kind; and the raised error answers with the server's [message] if it
    is present and not empty, else with the default summary of its kind,
    the first line of its description. *)
Theorem C2_error_kind_and_message loads response (d err : gmap string pyval) :
  loads response.(text) = Some (VDict d) ->
  d !! "error" = Some (VDict err) ->
  error_shape err ->
  exists e,
    decode_response loads response = Raise (ExcApi e)
    /\ cls_of e = match err !! "code" with
                  | Some (VStr c) => taxonomy c
                  | _ => Error
                  end
    /\ (forall c, err !! "code" = Some (VStr c) ->
                  c ∉ (__name__ <$> __subclasses__) -> cls_of e = Error)
    /\ Message e =
         ArgVal (VStr match err !! "message" with
                      | Some (VStr m) =>
                          if String.eqb m "" then default_summary (cls_of e)
                          else m
                      | _ => default_summary (cls_of e)
                      end)
    /\ default_summary (cls_of e) = first_line (__doc__ (cls_of e)).
Proof.
  intros Hl He [Hcode Hmsg]. eexists.
  split.
  { apply (decode_response_error _ _ d err Hl He).
    by destruct Hcode as [->|[c ->]]. }
  cbn [cls_of]. split; [|split; [|split]].
  - by destruct Hcode as [->|[c ->]].
  - intros c Hc Hn. rewrite Hc. cbn. by apply taxonomy_unknown.
  - unfold Message. cbn [cls_of message_of truthy_arg].
    rewrite first_line_doc.
    destruct Hmsg as [->|[m ->]]; [done|]. cbn.
    by destruct (String.eqb m "").
  - by rewrite first_line_doc.
Qed.

(** At [{"error": {"code": "UnknownThing"}}]: the generic kind, answering
    with the generic default summary. *)
Lemma C2_error_kind_and_message_witness :
  exists e,
    decode_response (loads_only "e" (VDict {[ "error" := VDict err_unknown_thing ]}))
      {| status_code := 400; text := "e" |} = Raise (ExcApi e)
    /\ cls_of e = Error
    /\ Message e = ArgVal (VStr "An error occurred.").
Proof.
  destruct (C2_error_kind_and_message
              (loads_only "e" (VDict {[ "error" := VDict err_unknown_thing ]}))
              {| status_code := 400; text := "e" |}
              {[ "error" := VDict err_unknown_thing ]} err_unknown_thing
              ltac:(reflexivity) ltac:(reflexivity)
              ltac:(split; [right; by eexists | by left]))
    as (e & Hd & Hk & _ & Hm & _).
  exists e. split; [exact Hd|]. split; [exact Hk|].
  rewrite Hm, Hk. reflexivity.
Defined.

(** ** C10: an error object without a code *)

(** C10: for every error envelope whose error object has no [code], the
    raised error is of the generic kind whatever the status, because the
    numeric status substituted for the code names no kind. *)
Theorem C10_missing_code_is_generic loads response (d err : gmap string pyval) :
  loads response.(text) = Some (VDict d) ->
  d !! "error" = Some (VDict err) ->
  err !! "code" = None ->
  decode_response loads response
    = Raise (ExcApi (Raised Error (ArgVal (default VNone (err !! "message")))))
  /\ (forall name, MAP_NAME_TO_EXCEPTION !! name <> None ->
        VStr name <> VInt response.(status_code))
  /\ (forall message,
        ErrorCodeToException (VInt response.(status_code)) message
        = Return (Raised Error (ArgVal message))).
Proof.
  intros Hl He Hc. split; [|split].
  - rewrite (decode_response_error _ _ d err Hl He); rewrite Hc; reflexivity.
  - intros name _. discriminate.
  - intros message. reflexivity.
Qed.

(** A 404 response carrying [{"error": {"message": "gone"}}] raises the
    generic kind, not [NotFoundError]. *)
Lemma C10_missing_code_is_generic_witness :
  decode_response (loads_only "e" (VDict {[ "error" := VDict err_no_code ]}))
    {| status_code := HTTP_CODE NotFoundError; text := "e" |}
  = Raise (ExcApi (Raised Error (ArgVal (VStr "gone")))).
Proof.
  exact (proj1 (C10_missing_code_is_generic
    (loads_only "e" (VDict {[ "error" := VDict err_no_code ]}))
    {| status_code := HTTP_CODE NotFoundError; text := "e" |}
    {[ "error" := VDict err_no_code ]} err_no_code
    ltac:(reflexivity) ltac:(reflexivity) ltac:(reflexivity))).
Defined.

(** ** The transport helper *)

Section TransportFacts.

Context {World : Type}.
Variable http : Request -> World -> (RequestException + Response) * World.
Variable now : World -> datetime.
Variable mktime : struct_tm -> Z.
Variable loads : string -> option pyval.

(** One run of [_FetchResponse]: exactly one request goes out, and the
    outcome is the library's exception or the decoded response. *)
Lemma _FetchResponse_run self endpoint params post_data (p : Process World) :
  _FetchResponse http loads self endpoint params post_data p =
  let req := request_of p.(FLAGS) self endpoint params post_data in
  let p' := after_request p req (http req p.(world)).2 in
  match (http req p.(world)).1 with
  | inl e => (Raise (ExcRequests e), p')
  | inr response => (decode_response loads response, p')
  end.
Proof.
  unfold _FetchResponse, request_of, after_request, io_bind, read_FLAGS,
    requests_post, requests_get, requests_call, lift.
  destruct (truthy post_data); cbn;
    match goal with |- context [http ?r ?w] => destruct (http r w) as [[e|resp] w'] end;
    reflexivity.
Qed.

Lemma DoGET_run self endpoint params (p : Process World) :
  DoGET http loads self endpoint params p
  = _FetchResponse http loads self endpoint params VNone p.
Proof. reflexivity. Qed.

Lemma DoPOST_run self endpoint post_data params (p : Process World) :
  DoPOST http loads self endpoint post_data params p
  = _FetchResponse http loads self endpoint params post_data p.
Proof. reflexivity. Qed.

End TransportFacts.

(** ** C3: a connection failure *)

(** When the library cannot deliver a response, its exception is what the
    caller of [DoGET] and [DoPOST] sees. *)
Lemma transport_failure_propagates
    {World} (http : Request -> World -> (RequestException + Response) * World)
    loads self endpoint params post_data (p : Process World) e :
  (http (request_of p.(FLAGS) self endpoint params post_data) p.(world)).1 = inl e ->
  (_FetchResponse http loads self endpoint params post_data p).1
  = Raise (ExcRequests e).
Proof.
  intros He. rewrite _FetchResponse_run. cbv zeta. by rewrite He.
Qed.

(** C3 (the code departs from it): with the server refusing connections,
    [DoGET('taps')] and [DoPOST('cancel-drink', {'id': 1})] raise the HTTP
    library's own [ConnectionError]; neither raises a [ServerError], which
    the docstrings of both methods promise for an error contacting the
    server. *)
Theorem C3_connection_failure_is_not_ServerError loads :
  let get := (DoGET http_refused loads local_client "taps" VNone fresh).1 in
  let post := (DoPOST http_refused loads local_client "cancel-drink"
                 (VDict {[ "id" := VInt 1 ]}) VNone fresh).1 in
  get = Raise (ExcRequests (ConnectionError "Connection refused"))
  /\ post = Raise (ExcRequests (ConnectionError "Connection refused"))
  /\ (forall e, cls_of e = ServerError ->
        get <> Raise (ExcApi e) /\ post <> Raise (ExcApi e)).
Proof.
  cbv zeta.
  assert (Hget : (DoGET http_refused loads local_client "taps" VNone fresh).1
                 = Raise (ExcRequests (ConnectionError "Connection refused"))).
  { rewrite DoGET_run. by apply transport_failure_propagates. }
  assert (Hpost : (DoPOST http_refused loads local_client "cancel-drink"
                     (VDict {[ "id" := VInt 1 ]}) VNone fresh).1
                 = Raise (ExcRequests (ConnectionError "Connection refused"))).
  { rewrite DoPOST_run. by apply transport_failure_propagates. }
  rewrite Hget, Hpost. repeat split; discriminate.
Qed.

(** ** C4: building the URL *)

Lemma lstrip_slashes (s : string) :
  exists m, s = slashes m ++ lstrip "/" s
            /\ starts_with_slash (lstrip "/" s) = false.
Proof.
  induction s as [|c s IH].
  - by exists O.
  - cbn [lstrip in_chars]. rewrite orb_false_r.
    destruct (Ascii.eqb_spec c "/") as [->|Hc].
    + destruct IH as (m & Hm & Hs). exists (S m). split; [|done].
      by rewrite Hm at 1.
    + exists O. split; [done|]. cbn. by apply Ascii.eqb_neq.
Qed.

Lemma rstrip_slashes (s : string) :
  exists n, s = rstrip "/" s ++ slashes n
            /\ ends_with_slash (rstrip "/" s) = false.
Proof.
  induction s as [|c s (n & Hn & He)].
  - by exists O.
  - cbn [rstrip in_chars]. rewrite orb_false_r.
    destruct (rstrip "/" s) as [|c' r] eqn:Hr.
    + destruct (Ascii.eqb_spec c "/") as [->|Hc].
      * exists (S n). split; [|done]. by rewrite Hn.
      * exists n. split; [by rewrite Hn|].
        cbn. by apply Ascii.eqb_neq.
    + exists n. split; [by rewrite Hn|]. exact He.
Qed.

Lemma rstrip_keeps_start (s : string) :
  starts_with_slash s = false -> starts_with_slash (rstrip "/" s) = false.
Proof.
  destruct s as [|c s]; [done|]. cbn [rstrip in_chars starts_with_slash].
  intros Hc. rewrite orb_false_r, Hc. by destruct (rstrip "/" s).
Qed.

(** C4, as stated, fails: with two trailing slashes on the base, stripping
    exactly one leaves a double slash in the URL, where the client strips
    both. *)
Lemma C4_strips_more_than_one_slash :
  let self := {| _api_url := "http://x/api//"; _api_key := "" |} in
  _GetURL self "taps" = "http://x/api/taps"
  /\ url_join_spec self.(_api_url) "taps" = "http://x/api//taps"
  /\ _GetURL self "taps" <> url_join_spec self.(_api_url) "taps".
Proof. by repeat split. Qed.

(** C4 (amended): for every base URL and endpoint, the request URL is
    built by stripping all the trailing slashes from the base and all the
    leading and trailing slashes from the endpoint, then joining the two
    with a single slash; in particular base [http://x/api/] with endpoint
    [/taps], and base [http://x/api] with endpoint [taps/], both yield
    [http://x/api/taps]. *)
Theorem C4_GetURL_strips_all_slashes :
  (forall self endpoint, exists base' endpoint' n m k,
      self.(_api_url) = base' ++ slashes n
      /\ ends_with_slash base' = false
      /\ endpoint = slashes m ++ endpoint' ++ slashes k
      /\ starts_with_slash endpoint' = false
      /\ ends_with_slash endpoint' = false
      /\ _GetURL self endpoint = base' ++ "/" ++ endpoint')
  /\ (forall key,
        _GetURL {| _api_url := "http://x/api/"; _api_key := key |} "/taps"
        = "http://x/api/taps")
  /\ (forall key,
        _GetURL {| _api_url := "http://x/api"; _api_key := key |} "taps/"
        = "http://x/api/taps").
Proof.
  split; [|by split].
  intros self endpoint.
  destruct (rstrip_slashes self.(_api_url)) as (n & Hn & Hb).
  destruct (lstrip_slashes endpoint) as (m & Hm & Hs).
  destruct (rstrip_slashes (lstrip "/" endpoint)) as (k & Hk & He).
  exists (rstrip "/" self.(_api_url)), (strip "/" endpoint), n, m, k.
  unfold strip. repeat split; try done.
  - by rewrite <- Hk.
  - by apply rstrip_keeps_start.
Qed.

(** ** Reading an epoch time back from its decimal form *)

Lemma lstrip_id chars c s :
  in_chars c chars = false -> lstrip chars (String c s) = String c s.
Proof. intros H. cbn. by rewrite H. Qed.

Lemma rstrip_id chars s :
  all_chars (fun c => negb (in_chars c chars)) s = true -> rstrip chars s = s.
Proof.
  induction s as [|c s IH]; [done|]. cbn [all_chars rstrip].
  intros [Hc Hs]%andb_prop. rewrite (IH Hs).
  apply negb_true_iff in Hc. rewrite Hc. by destruct s.
Qed.

Lemma digits_of_uint d : all_chars is_digit (NilEmpty.string_of_uint d) = true.
Proof. induction d; cbn; try done. Qed.

Lemma digit_not_space c : is_digit c = true -> in_chars c whitespace = false.
Proof.
  unfold is_digit. cbn [in_chars]. rewrite !orb_false_r, !orb_true_iff.
  intros H. repeat destruct H as [H|H];
    apply Ascii.eqb_eq in H; by subst.
Qed.

Lemma digit_not_plus c : is_digit c = true -> Ascii.eqb c "+" = false.
Proof.
  unfold is_digit. cbn [in_chars]. rewrite !orb_false_r, !orb_true_iff.
  intros H. repeat destruct H as [H|H];
    apply Ascii.eqb_eq in H; by subst.
Qed.

Lemma all_chars_impl (P Q : ascii -> bool) s :
  (forall c, P c = true -> Q c = true) ->
  all_chars P s = true -> all_chars Q s = true.
Proof.
  intros HPQ. induction s as [|c s IH]; [done|]. cbn.
  intros [Hc Hs]%andb_prop. by rewrite (HPQ _ Hc), (IH Hs).
Qed.

(** [int] on a literal without surrounding whitespace or a plus sign. *)
Lemma py_int_plain c r :
  in_chars c whitespace = false ->
  Ascii.eqb c "+" = false ->
  all_chars (fun c => negb (in_chars c whitespace)) r = true ->
  py_int (String c r) =
  match NilZero.int_of_string (String c r) with
  | Some d => Return (Z.of_int d)
  | None => Raise (ValueError "invalid literal for int() with base 10")
  end.
Proof.
  intros Hc Hp Hr. unfold py_int, strip.
  rewrite lstrip_id by done.
  rewrite rstrip_id by (cbn [all_chars]; by rewrite Hc, Hr).
  cbv zeta. by rewrite Hp.
Qed.

Lemma uint_string_no_space d :
  all_chars (fun c => negb (in_chars c whitespace)) (NilEmpty.string_of_uint d)
  = true.
Proof.
  apply (all_chars_impl is_digit); [|apply digits_of_uint].
  intros c Hc. by rewrite (digit_not_space c Hc).
Qed.

Lemma py_int_of_decimal (z : Z) :
  py_int (NilZero.string_of_int (Z.to_int z)) = Return z.
Proof.
  assert (Hiso : NilZero.int_of_string (NilZero.string_of_int (Z.to_int z))
                 = Some (Z.to_int z)).
  { apply NilZero.isi; destruct z as [|q|q]; cbn; try discriminate;
      intros [=H]; by apply DecimalPos.Unsigned.to_uint_nonnil in H. }
  destruct z as [|q|q].
  - reflexivity.
  - cbn [Z.to_int NilZero.string_of_int] in *.
    pose proof (DecimalPos.Unsigned.to_uint_nonnil q) as Hq.
    pose proof (digits_of_uint (Pos.to_uint q)) as Hd.
    pose proof (uint_string_no_space (Pos.to_uint q)) as Hs.
    assert (He : NilZero.string_of_uint (Pos.to_uint q)
                 = NilEmpty.string_of_uint (Pos.to_uint q))
      by (by destruct (Pos.to_uint q)).
    rewrite He in *.
    destruct (NilEmpty.string_of_uint (Pos.to_uint q)) as [|c r] eqn:Hstr.
    { destruct (Pos.to_uint q); discriminate. }
    cbn [all_chars] in Hd, Hs.
    apply andb_prop in Hd as [Hc _]. apply andb_prop in Hs as [_ Hr].
    rewrite py_int_plain, Hiso;
      [ | by apply digit_not_space | by apply digit_not_plus | done ].
    change (Decimal.Pos (Pos.to_uint q)) with (Z.to_int (Z.pos q)).
    by rewrite DecimalZ.of_to.
  - cbn [Z.to_int NilZero.string_of_int] in *.
    assert (He : NilZero.string_of_uint (Pos.to_uint q)
                 = NilEmpty.string_of_uint (Pos.to_uint q))
      by (by destruct (Pos.to_uint q)).
    rewrite He in *.
    rewrite py_int_plain, Hiso;
      [ | done | done | apply uint_string_no_space ].
    change (Decimal.Neg (Pos.to_uint q)) with (Z.to_int (Z.neg q)).
    by rewrite DecimalZ.of_to.
Qed.

Lemma strftime_s_ok mktime (dt : datetime) :
  strftime_ok dt = true ->
  strftime_s mktime dt
  = Return (NilZero.string_of_int (Z.to_int (mktime (timetuple dt)))).
Proof.
  unfold strftime_ok, strftime_s. intros H%Z.leb_le.
  by rewrite (proj2 (Z.ltb_ge _ _) H).
Qed.

Lemma strftime_s_old mktime (dt : datetime) :
  strftime_ok dt = false -> strftime_s mktime dt = Raise year_before_1900.
Proof.
  unfold strftime_ok, strftime_s. intros H%Z.leb_gt.
  by rewrite (proj2 (Z.ltb_lt _ _) H).
Qed.

(** ** C5: the form sent by [RecordDrink] *)

Lemma lookup_opt_insert k o (m : gmap string pyval) k' :
  opt_insert k o m !! k' =
  if decide (k = k') then match o with Some v => Some v | None => m !! k' end
  else m !! k'.
Proof.
  destruct o as [v|]; cbn; [|by case_decide].
  by rewrite lookup_insert.
Qed.

Section RecordDrinkFacts.

Context {World : Type}.
Variable http : Request -> World -> (RequestException + Response) * World.
Variable now : World -> datetime.
Variable mktime : struct_tm -> Z.
Variable loads : string -> option pyval.

(** When [strftime] accepts the dates (or there is none to format), the
    form is built and posted. *)
Lemma RecordDrink_run self tap_name ticks volume_ml username pour_time
    duration auth_token spilled shout (p : Process World) :
  dates_ok pour_time (now p.(world)) = true ->
  RecordDrink http now mktime loads self tap_name ticks volume_ml username
    pour_time duration auth_token spilled shout p =
  io_bind
    (DoPOST http loads self ("/taps/" ++ tap_name)
       (VDict (drink_form tap_name ticks volume_ml username pour_time duration
                 auth_token spilled shout mktime (now p.(world))))
       VNone)
    (fun r => lift (py_getattr r "object")) p.
Proof.
  intros Hd. unfold RecordDrink, drink_form. cbv zeta.
  rewrite Z.gtb_ltb. cbn [truthy].
  destruct pour_time as [pt|]; cbn [dates_ok] in Hd.
  - apply andb_prop in Hd as [Hpt Ht].
    destruct volume_ml, username, (0 <? duration)%Z, auth_token, spilled,
      (String.eqb shout "");
      cbn [negb fmap option_fmap option_map opt_insert];
      unfold io_bind at 1; unfold io_bind at 1;
      unfold lift at 1; rewrite (strftime_s_ok _ _ Hpt);
      unfold io_bind at 1, lift at 1; rewrite py_int_of_decimal;
      unfold io_bind at 1, datetime_now at 1;
      unfold io_bind at 1, lift at 1; rewrite (strftime_s_ok _ _ Ht);
      unfold io_bind at 1, lift at 1; rewrite py_int_of_decimal;
      reflexivity.
  - destruct volume_ml, username, (0 <? duration)%Z, auth_token, spilled,
      (String.eqb shout "");
      cbn [negb fmap option_fmap option_map opt_insert];
      unfold io_bind at 1; reflexivity.
Qed.

(** When [strftime] refuses the [pour_time] or the clock's reading,
    [RecordDrink] raises its [ValueError] and nothing has been sent. *)
Lemma RecordDrink_stopped self tap_name ticks volume_ml username pour_time
    duration auth_token spilled shout (p : Process World) :
  dates_ok pour_time (now p.(world)) = false ->
  RecordDrink http now mktime loads self tap_name ticks volume_ml username
    pour_time duration auth_token spilled shout p
  = (Raise year_before_1900, p).
Proof.
  intros Hd. unfold RecordDrink. cbv zeta.
  destruct pour_time as [pt|]; [|discriminate]. cbn [dates_ok] in Hd.
  unfold io_bind at 1. unfold io_bind at 1. unfold lift at 1.
  destruct (strftime_ok pt) eqn:Hpt.
  - cbn [andb] in Hd.
    rewrite (strftime_s_ok _ _ Hpt).
    unfold io_bind at 1, lift at 1. rewrite py_int_of_decimal.
    unfold io_bind at 1, datetime_now at 1.
    unfold io_bind at 1, lift at 1. by rewrite (strftime_s_old _ _ Hd).
  - by rewrite (strftime_s_old _ _ Hpt).
Qed.

Lemma drink_form_truthy tap_name ticks volume_ml username pour_time duration
    auth_token spilled shout t :
  truthy (VDict (drink_form tap_name ticks volume_ml username pour_time
                   duration auth_token spilled shout mktime t)) = true.
Proof.
  cbn [truthy]. apply negb_true_iff, bool_decide_eq_false. intros He.
  assert (Hl : drink_form tap_name ticks volume_ml username pour_time
                 duration auth_token spilled shout mktime t !! "tap_name"
               = Some (VStr tap_name)).
  { unfold drink_form. rewrite !lookup_opt_insert.
    repeat (case_decide; [discriminate|]).
    by rewrite lookup_insert_ne, lookup_singleton_eq. }
  by rewrite He in Hl.
Qed.

(** What goes out: one POST to the tap's endpoint carrying the form. *)
Lemma RecordDrink_sent self tap_name ticks volume_ml username pour_time
    duration auth_token spilled shout (p : Process World) :
  dates_ok pour_time (now p.(world)) = true ->
  (RecordDrink http now mktime loads self tap_name ticks volume_ml username
     pour_time duration auth_token spilled shout p).2.(sent)
  = (p.(sent) ++
    [ {| req_method := POST;
         req_url := _GetURL self ("/taps/" ++ tap_name);
         req_params := VNone;
         req_data :=
           Some (VDict (drink_form tap_name ticks volume_ml username pour_time
                          duration auth_token spilled shout mktime
                          (now p.(world))));
         req_headers := {[ "X-Kegbot-Api-Key" := self.(_api_key) ]};
         req_timeout := p.(FLAGS).(api_timeout) |} ])%list.
Proof.
  intros Hd. rewrite RecordDrink_run by done. unfold io_bind.
  rewrite DoPOST_run, _FetchResponse_run. cbv zeta.
  unfold request_of. rewrite drink_form_truthy.
  destruct (http _ _) as [[e|response] w]; cbn [fst snd]; [reflexivity|].
  by destruct (decode_response loads response).
Qed.

End RecordDrinkFacts.

(** Looks a field up in [drink_form], peeling the optional fields. *)
Ltac drink_form_lookup :=
  unfold drink_form;
  repeat (rewrite lookup_opt_insert; case_decide; try congruence);
  rewrite ?lookup_insert_eq, ?lookup_insert_ne, ?lookup_singleton_eq,
    ?lookup_singleton_ne by congruence;
  try reflexivity.

Lemma drink_form_lookup_fixed tap_name ticks volume_ml username pour_time
    duration auth_token spilled shout mktime t :
  let form := drink_form tap_name ticks volume_ml username pour_time duration
                auth_token spilled shout mktime t in
  form !! "tap_name" = Some (VStr tap_name)
  /\ form !! "ticks" = Some (VInt ticks).
Proof. split; drink_form_lookup. Qed.

Lemma drink_form_lookup_optional tap_name ticks volume_ml username pour_time
    duration auth_token spilled shout mktime t :
  let form := drink_form tap_name ticks volume_ml username pour_time duration
                auth_token spilled shout mktime t in
  form !! "volume_ml" = VInt <$> volume_ml
  /\ form !! "username" = VStr <$> username
  /\ form !! "auth_token" = VStr <$> auth_token
  /\ form !! "duration" = (if (0 <? duration)%Z then Some (VInt duration) else None)
  /\ form !! "spilled" = (if spilled then Some (VBool true) else None)
  /\ form !! "shout" = (if String.eqb shout "" then None else Some (VStr shout))
  /\ form !! "pour_time"
     = (fun pt => VInt (mktime (timetuple pt))) <$> pour_time
  /\ form !! "now" = (fun _ => VInt (mktime (timetuple t))) <$> pour_time.
Proof.
  cbv zeta. unfold drink_form. repeat split.
  - destruct volume_ml; drink_form_lookup.
  - destruct username; drink_form_lookup.
  - destruct auth_token; drink_form_lookup.
  - destruct (0 <? duration)%Z; drink_form_lookup.
  - destruct spilled; drink_form_lookup.
  - destruct (String.eqb shout ""); drink_form_lookup.
  - destruct pour_time; drink_form_lookup.
  - destruct pour_time; drink_form_lookup.
Qed.

Lemma drink_form_lookup_other tap_name ticks volume_ml username pour_time
    duration auth_token spilled shout mktime t (k : string) :
  k ∉ drink_fields ->
  drink_form tap_name ticks volume_ml username pour_time duration
    auth_token spilled shout mktime t !! k = None.
Proof.
  unfold drink_fields. intros Hk.
  assert (Hne : forall f, f ∈ drink_fields -> f <> k).
  { intros f Hf ->. by apply Hk. }
  unfold drink_fields in Hne.
  unfold drink_form.
  repeat (rewrite lookup_opt_insert; case_decide;
          [exfalso; eapply Hne; [|eassumption]; set_solver|]).
  rewrite lookup_insert_ne by (apply Hne; set_solver).
  apply lookup_singleton_ne, Hne. set_solver.
Qed.

(** C5, as stated, fails on the dates.  In a process whose time zone is
    UTC, the aware [pour_time] 2010-11-04 17:41:28+01:00 denotes the
    instant 1288888888, and [RecordDrink] sends 1288892488 as [pour_time]:
    [strftime('%s')] reads the wall-clock fields as local time and leaves
    the offset out.  And with the [pour_time] 1899-12-31 23:59:59,
    [strftime] raises before anything is sent: no form goes out, with or
    without [tap_name] and [ticks]. *)
Lemma C5_pour_time_is_not_its_instant :
  instant_seconds mktime_utc an_aware_pour_time = 1288888888
  /\ last_form_field
       (RecordDrink http_refused (fun _ => epoch) mktime_utc loads_none
          local_client "kegboard.flow0" 2200 None None
          (Some an_aware_pour_time) 0 None false "" fresh).2 "pour_time"
     = Some (VInt 1288892488)
  /\ RecordDrink http_refused (fun _ => epoch) mktime_utc loads_none
       local_client "kegboard.flow0" 2200 None None
       (Some an_old_pour_time) 0 None false "" fresh
     = (Raise year_before_1900, fresh).
Proof.
  split; [reflexivity|]. split.
  - unfold last_form_field. rewrite RecordDrink_sent by reflexivity.
    rewrite last_snoc. reflexivity.
  - by apply RecordDrink_stopped.
Qed.

(** C5 (amended): whenever [strftime] accepts the dates it is given (a
    year of 1900 or later for [pour_time] and for the clock, when
    [pour_time] is given), [RecordDrink] issues one POST whose form has
    [tap_name] and [ticks] always; [volume_ml], [username] and
    [auth_token] exactly when the argument is given; [duration] exactly
    when it is positive; [spilled] exactly when it is true; [shout] exactly
    when it is non-empty; and, exactly when [pour_time] is given,
    [pour_time] and [now], each the whole number of seconds that
    [strftime('%s')] gives: the epoch seconds of the wall-clock fields of
    the argument, and of the clock's reading, taken as local time of the
    process (for a naive datetime, the instant it denotes); and no other
    field.  [RecordDrink("kegboard.flow0", 2200)] sends exactly [tap_name]
    and [ticks]. *)
Theorem C5_RecordDrink_form {World}
    (http : Request -> World -> (RequestException + Response) * World)
    (now : World -> datetime) (mktime : struct_tm -> Z)
    (loads : string -> option pyval) :
  (forall self tap_name ticks volume_ml username pour_time duration
          auth_token spilled shout (p : Process World),
    dates_ok pour_time (now p.(world)) = true ->
    exists (form : gmap string pyval) (req : Request),
      (RecordDrink http now mktime loads self tap_name ticks volume_ml username
         pour_time duration auth_token spilled shout p).2.(sent)
      = (p.(sent) ++ [req])%list
      /\ req.(req_method) = POST
      /\ req.(req_url) = _GetURL self ("/taps/" ++ tap_name)
      /\ req.(req_data) = Some (VDict form)
      /\ form !! "tap_name" = Some (VStr tap_name)
      /\ form !! "ticks" = Some (VInt ticks)
      /\ form !! "volume_ml" = VInt <$> volume_ml
      /\ form !! "username" = VStr <$> username
      /\ form !! "auth_token" = VStr <$> auth_token
      /\ form !! "duration"
         = (if (0 <? duration)%Z then Some (VInt duration) else None)
      /\ form !! "spilled" = (if spilled then Some (VBool true) else None)
      /\ form !! "shout"
         = (if String.eqb shout "" then None else Some (VStr shout))
      /\ form !! "pour_time"
         = (fun pt => VInt (mktime (timetuple pt))) <$> pour_time
      /\ form !! "now"
         = (fun _ => VInt (mktime (timetuple (now p.(world))))) <$> pour_time
      /\ (forall k, k ∉ drink_fields -> form !! k = None))
  /\ (forall dt : datetime,
        dt.(tz) = None -> mktime (timetuple dt) = instant_seconds mktime dt)
  /\ (forall self (p : Process World),
        exists req,
          (RecordDrink http now mktime loads self "kegboard.flow0" 2200 None None
             None 0 None false "" p).2.(sent) = (p.(sent) ++ [req])%list
          /\ req.(req_data)
             = Some (VDict (<["ticks" := VInt 2200]>
                              {[ "tap_name" := VStr "kegboard.flow0" ]}))).
Proof.
  split; [|split].
  - intros * Hd. eexists _, _. split; [by apply RecordDrink_sent|].
    cbn [req_method req_url req_data].
    split; [done|]. split; [done|]. split; [done|].
    split; [apply drink_form_lookup_fixed|].
    split; [apply drink_form_lookup_fixed|].
    pose proof (drink_form_lookup_optional tap_name ticks volume_ml username
                  pour_time duration auth_token spilled shout mktime
                  (now p.(world)))
      as (?&?&?&?&?&?&?&?).
    repeat (split; [assumption|]).
    apply drink_form_lookup_other.
  - intros dt Hdt. unfold instant_seconds. by rewrite Hdt.
  - intros. eexists. split; [by apply RecordDrink_sent|]. reflexivity.
Qed.

(** In a UTC process, [RecordDrink("kegboard.flow0", 2200,
    pour_time=datetime(2010, 11, 4, 16, 41, 28, 250000))] at the epoch
    sends [pour_time] 1288888888 and [now] 0. *)
Lemma C5_RecordDrink_form_witness :
  exists form req,
    (RecordDrink http_refused (fun _ => epoch) mktime_utc loads_none
       local_client "kegboard.flow0" 2200 None None (Some a_pour_time) 0
       None false "" fresh).2.(sent) = [req]
    /\ req.(req_data) = Some (VDict form)
    /\ form !! "pour_time" = Some (VInt 1288888888)
    /\ form !! "now" = Some (VInt 0)
    /\ form !! "spilled" = None.
Proof.
  destruct (proj1 (C5_RecordDrink_form http_refused (fun _ => epoch)
                     mktime_utc loads_none)
              local_client "kegboard.flow0" 2200 None None (Some a_pour_time)
              0 None false "" fresh ltac:(reflexivity))
    as (form & req & Hs & _ & _ & Hd & _ & _ & _ & _ & _ & _ & Hsp & _
        & Hpt & Hnow & _).
  exists form, req. split; [exact Hs|]. split; [exact Hd|].
  split; [exact Hpt|]. split; [exact Hnow|exact Hsp].
Defined.

(** ** What each call sends *)

Section CallFacts.

Context {World : Type}.
Variable http : Request -> World -> (RequestException + Response) * World.
Variable now : World -> datetime.
Variable mktime : struct_tm -> Z.
Variable loads : string -> option pyval.

Lemma _FetchResponse_state self endpoint params post_data (p : Process World) :
  let req := request_of p.(FLAGS) self endpoint params post_data in
  (_FetchResponse http loads self endpoint params post_data p).2
  = after_request p req (http req p.(world)).2.
Proof.
  rewrite _FetchResponse_run. cbv zeta.
  by destruct (http _ _) as [[e|response] w].
Qed.

(** Projecting an attribute out of the result does not touch the process. *)
Lemma io_bind_lift_state {A B} (m : io World A) (g : A -> result B)
    (p : Process World) :
  (io_bind m (fun r => lift (g r)) p).2 = (m p).2.
Proof. unfold io_bind, lift. by destruct (m p) as [[r|e] p']. Qed.

Lemma try_except_lift_state {A} (body : io World A) cls
    (h : ErrorInstance -> result A) (p : Process World) :
  (try_except body cls (fun e => lift (h e)) p).2 = (body p).2.
Proof.
  unfold try_except, lift. destruct (body p) as [[r|[]] p']; try done.
  by destruct (isinstance _ _).
Qed.

Lemma do_call_state (c : call) self (p : Process World) :
  exists w,
    (do_call http now mktime loads c self p).2.2 =
    {| FLAGS := p.(FLAGS); world := w;
       sent := p.(sent)
               ++ option_list (call_request mktime p.(FLAGS) (now p.(world)) self c) |}.
Proof.
  destruct c as [| | |tap ticks vol user pt dur tok sp sh| | | | | |];
    cbn [do_call call_request option_list snd];
    try (unfold CancelDrink, LogSensorReading, TapStatus, AllDrinks,
           AllSoundEvents, GetToken;
         rewrite ?try_except_lift_state, ?io_bind_lift_state,
           ?DoGET_run, ?DoPOST_run, ?_FetchResponse_state;
         by eexists).
  - exists p.(world). rewrite app_nil_r. by destruct p.
  - destruct (dates_ok pt (now p.(world))) eqn:Hd.
    + rewrite RecordDrink_run, io_bind_lift_state, DoPOST_run,
        _FetchResponse_state by done. by eexists.
    + rewrite RecordDrink_stopped by done. exists p.(world).
      cbn [option_list snd]. rewrite app_nil_r. by destruct p.
Qed.

Lemma do_call_client (c : call) self (p : Process World) :
  (do_call http now mktime loads c self p).1 =
  match c with
  | CallSetAuthToken k => SetAuthToken self k
  | _ => self
  end.
Proof. by destruct c. Qed.

End CallFacts.

Lemma call_request_Some mktime flags t self c req :
  call_request mktime flags t self c = Some req ->
  sets_key c = false
  /\ req.(req_headers) = {[ "X-Kegbot-Api-Key" := self.(_api_key) ]}
  /\ req.(req_timeout) = flags.(api_timeout).
Proof.
  destruct c as [| | |tap ticks vol user pt dur tok sp sh| | | | | |]; cbn;
    try destruct (dates_ok pt t); intros [= <-]; by repeat split.
Qed.

(** Only [SetAuthToken], and a [RecordDrink] given a [pour_time], can go
    without a request. *)
Lemma call_request_None mktime flags t self c :
  call_request mktime flags t self c = None ->
  sets_key c = true \/ (sets_key c = false /\ reads_clock c = true).
Proof.
  destruct c as [| | |tap ticks vol user [pt|] dur tok sp sh| | | | | |];
    cbn; try discriminate; auto.
Qed.

Lemma sublist_Forall_l {A} (P : A -> Prop) (l1 l2 : list A) :
  l1 `sublist_of` l2 -> Forall P l2 -> Forall P l1.
Proof.
  induction 1 as [|x l1 l2 _ IH|x l1 l2 _ IH]; intros H; [done| |].
  - apply Forall_cons in H as [Hx H]. constructor; auto.
  - apply Forall_cons in H as [_ H]. auto.
Qed.

Section SessionFacts.

Context {World : Type}.
Variable http : Request -> World -> (RequestException + Response) * World.
Variable now : World -> datetime.
Variable mktime : struct_tm -> Z.
Variable loads : string -> option pyval.

Lemma session_cons c cs self (p : Process World) :
  session http now mktime loads (c :: cs) self p =
  session http now mktime loads cs
    (do_call http now mktime loads c self p).1 (do_call http now mktime loads c self p).2.2.
Proof.
  cbn [session]. by destruct (do_call http now mktime loads c self p) as [? [? ?]].
Qed.

(** A session only appends to the log; the flags stay; each request
    carries, as its only header, the key in force when it was issued, and
    as its timeout the flag's value.  A call issues at most one request,
    and exactly one unless it is [SetAuthToken] or a [RecordDrink] that
    [strftime] stops. *)
Lemma session_requests cs self (p : Process World) :
  exists reqs,
    (session http now mktime loads cs self p).2.(sent)
    = (p.(sent) ++ reqs)%list
    /\ (session http now mktime loads cs self p).2.(FLAGS) = p.(FLAGS)
    /\ (api_key_header <$> reqs)
         `sublist_of` (Some <$> keys_in_force cs self.(_api_key))
    /\ Forall (fun req => req.(req_timeout) = p.(FLAGS).(api_timeout)) reqs
    /\ (Forall (fun c => reads_clock c = false) cs ->
        api_key_header <$> reqs = Some <$> keys_in_force cs self.(_api_key)).
Proof.
  revert self p. induction cs as [|c cs IH]; intros self p.
  - exists []. cbn. rewrite app_nil_r. repeat split; try done.
  - rewrite session_cons, do_call_client.
    destruct (do_call_state http now mktime loads c self p) as (w & ->).
    destruct (call_request mktime p.(FLAGS) (now p.(world)) self c)
      as [req|] eqn:Hreq.
    + apply call_request_Some in Hreq as (Hc & Hh & Ht).
      assert (Hkey : api_key_header req = Some self.(_api_key))
        by (unfold api_key_header; by rewrite Hh, lookup_singleton_eq).
      destruct c; try discriminate;
        match goal with |- context [session _ _ _ _ cs self ?q] =>
          destruct (IH self q) as (reqs & -> & -> & Hk & Hts & Heq) end;
        exists (req :: reqs); cbn [FLAGS sent option_list];
        (split; [by rewrite <- app_assoc|]); (split; [done|]);
        cbn [keys_in_force fmap list_fmap]; rewrite Hkey;
        (split; [by apply sublist_skip|]);
        (split; [by constructor|]);
        intros Hcs; apply Forall_cons in Hcs as [_ Hcs]; f_equal; auto.
    + apply call_request_None in Hreq as [Hc|[Hc Hr]].
      * destruct c; try discriminate. cbn [option_list keys_in_force].
        match goal with |- context [session _ _ _ _ cs ?s ?q] =>
          destruct (IH s q) as (reqs & -> & -> & Hk & Hts & Heq) end.
        exists reqs. cbn [FLAGS sent]. rewrite app_nil_r.
        repeat split; try done.
        intros Hcs. apply Forall_cons in Hcs as [_ Hcs]. auto.
      * destruct c; try discriminate.
        match goal with |- context [session _ _ _ _ cs ?s ?q] =>
          destruct (IH s q) as (reqs & -> & -> & Hk & Hts & Heq) end.
        exists reqs. cbn [FLAGS sent option_list keys_in_force].
        rewrite app_nil_r. repeat split; try done.
        -- cbn [fmap list_fmap]. by apply sublist_cons.
        -- intros Hcs. apply Forall_cons in Hcs as [Hcr _]. congruence.
Qed.

End SessionFacts.

(** ** C6: [GetToken] and [ServerError] *)

(** C6: [GetToken] raises [NotFoundError] whenever its GET raises
    [ServerError], never raises [ServerError] itself, and lets every other
    exception of the GET through unchanged. *)
Theorem C6_GetToken_reinterprets_ServerError {World}
    (http : Request -> World -> (RequestException + Response) * World)
    (loads : string -> option pyval)
    self auth_device token_value (p : Process World) :
  let get := DoGET http loads self
               ("auth-tokens/" ++ auth_device ++ "/" ++ token_value) VNone p in
  let out := GetToken http loads self auth_device token_value p in
  out.2 = get.2
  /\ out.1 =
     match get.1 with
     | Raise (ExcApi (Raised ServerError m)) =>
         Raise (ExcApi (Raised NotFoundError (ArgErr (Raised ServerError m))))
     | Raise e => Raise e
     | Return r => py_getattr r "object"
     end
  /\ (forall e, cls_of e = ServerError -> out.1 <> Raise (ExcApi e)).
Proof.
  cbv zeta. unfold GetToken.
  split; [by rewrite try_except_lift_state, io_bind_lift_state|].
  unfold try_except, io_bind, lift.
  destruct (DoGET http loads self _ VNone p) as [[r|e] p']; cbn [fst].
  - assert (Hr : forall e, py_getattr r "object" <> Raise (ExcApi e)).
    { intros e. destruct r; cbn; try discriminate.
      by destruct (d !! "object"). }
    split.
    + destruct (py_getattr r "object") as [v|[e| | | | | |]] eqn:Hg; try done.
      by destruct (Hr e).
    + intros e _ He.
      destruct (py_getattr r "object") as [v|[e'| | | | | |]] eqn:Hg;
        try discriminate.
      by destruct (Hr e').
  - destruct e as [[cls m]| | | | | |]; try (split; [done|discriminate]).
    destruct cls; cbn; (split; [done|]); intros [c m'] Hc [=]; by subst.
Qed.

(** A server answering 500 with a [ServerError] envelope: the GET raises
    [ServerError], [GetToken] raises [NotFoundError] wrapping it. *)
Example GetToken_on_ServerError :
  let http := http_const {| status_code := 500; text := "e" |} in
  let loads := loads_only "e" (VDict env_server_error) in
  (DoGET http loads local_client "auth-tokens/core.rfid/deadbeef" VNone fresh).1
  = Raise (ExcApi (Raised ServerError (ArgVal (VStr "oops"))))
  /\ (GetToken http loads local_client "core.rfid" "deadbeef" fresh).1
     = Raise (ExcApi (Raised NotFoundError
                (ArgErr (Raised ServerError (ArgVal (VStr "oops")))))).
Proof. split; vm_compute; reflexivity. Qed.

(** ** C7: the API key header *)

Lemma keys_in_force_constant cs key :
  Forall (fun c => sets_key c = false) cs ->
  keys_in_force cs key = replicate (length cs) key.
Proof.
  induction 1 as [|c cs Hc _ IH]; [done|].
  destruct c; try discriminate; cbn; by rewrite IH.
Qed.

Lemma headers_all_equal (reqs : list Request) n key :
  api_key_header <$> reqs = Some <$> replicate n key ->
  length reqs = n /\ Forall (fun req => api_key_header req = Some key) reqs.
Proof.
  revert n. induction reqs as [|req reqs IH]; intros [|n]; cbn; try done.
  intros [= Hreq Hreqs]. destruct (IH n Hreqs) as [<- ?].
  split; [done|by constructor].
Qed.

(** C7: every request carries the header [X-Kegbot-Api-Key] with the
    client's stored key, also when the key is empty; [SetAuthToken(k)]
    changes the stored key and nothing else, and the requests of all the
    calls that follow carry [k]. *)
Theorem C7_api_key_header {World}
    (http : Request -> World -> (RequestException + Response) * World)
    (now : World -> datetime) (mktime : struct_tm -> Z)
    (loads : string -> option pyval) :
  (forall self endpoint params post_data (p : Process World),
     exists req,
       (_FetchResponse http loads self endpoint params post_data p).2.(sent)
       = (p.(sent) ++ [req])%list
       /\ req.(req_headers) = {[ "X-Kegbot-Api-Key" := self.(_api_key) ]})
  /\ (forall url endpoint params post_data (p : Process World),
     exists req,
       (_FetchResponse http loads {| _api_url := url; _api_key := "" |}
          endpoint params post_data p).2.(sent) = (p.(sent) ++ [req])%list
       /\ api_key_header req = Some "")
  /\ (forall self k (p : Process World),
       do_call http now mktime loads (CallSetAuthToken k) self p
       = ({| _api_url := self.(_api_url); _api_key := k |}, (Return VNone, p)))
  /\ (forall cs self (p : Process World),
     exists reqs,
       (session http now mktime loads cs self p).2.(sent)
       = (p.(sent) ++ reqs)%list
       /\ (api_key_header <$> reqs)
            `sublist_of` (Some <$> keys_in_force cs self.(_api_key))
       /\ (Forall (fun c => reads_clock c = false) cs ->
           api_key_header <$> reqs
           = Some <$> keys_in_force cs self.(_api_key)))
  /\ (forall k cs self (p : Process World),
       Forall (fun c => sets_key c = false) cs ->
       exists reqs,
         (session http now mktime loads (CallSetAuthToken k :: cs) self p).2.(sent)
         = (p.(sent) ++ reqs)%list
         /\ (length reqs <= length cs)%nat
         /\ (Forall (fun c => reads_clock c = false) cs ->
             length reqs = length cs)
         /\ Forall (fun req => api_key_header req = Some k) reqs).
Proof.
  split; [|split; [|split; [|split]]].
  - intros. eexists. rewrite _FetchResponse_state. by split.
  - intros. eexists. rewrite _FetchResponse_state. by split.
  - done.
  - intros cs self p.
    destruct (session_requests http now mktime loads cs self p)
      as (reqs & Hs & _ & Hk & _ & Heq).
    by exists reqs.
  - intros k cs self p Hcs.
    destruct (session_requests http now mktime loads
                (CallSetAuthToken k :: cs) self p)
      as (reqs & Hs & _ & Hk & _ & Heq).
    exists reqs. split; [done|].
    cbn [keys_in_force] in Hk, Heq.
    rewrite keys_in_force_constant in Hk, Heq by done.
    split; [|split].
    + apply sublist_length in Hk.
      by rewrite !length_fmap, length_replicate in Hk.
    + intros Hclock. apply (headers_all_equal reqs (length cs) k).
      apply Heq. by constructor.
    + apply (Forall_fmap api_key_header (fun h => h = Some k)).
      apply (sublist_Forall_l _ _ _ Hk), Forall_fmap.
      by apply Forall_replicate.
Qed.

(** After [SetAuthToken("newkey")], a GET and a POST both carry
    [X-Kegbot-Api-Key: newkey]. *)
Lemma C7_api_key_header_witness :
  exists reqs,
    (session http_refused (fun _ => epoch) mktime_utc loads_none
       [CallSetAuthToken "newkey"; CallTapStatus; CallCancelDrink 7 false]
       local_client fresh).2.(sent) = reqs
    /\ length reqs = 2%nat
    /\ Forall (fun req => api_key_header req = Some "newkey") reqs.
Proof.
  destruct (proj2 (proj2 (proj2 (proj2
              (C7_api_key_header http_refused (fun _ => epoch) mktime_utc loads_none))))
              "newkey" [CallTapStatus; CallCancelDrink 7 false]
              local_client fresh) as (reqs & Hs & _ & Hl & Hk).
  - repeat constructor.
  - exists reqs. split; [exact Hs|]. split; [|exact Hk].
    apply Hl. repeat constructor.
Defined.

(** ** C8: the form data handed to the HTTP library *)

(** With a form that is true-valued, the request carries it as it is. *)
Lemma DoPOST_data_unchanged {World}
    (http : Request -> World -> (RequestException + Response) * World)
    loads self endpoint post_data params (p : Process World) :
  truthy post_data = true ->
  exists req,
    (DoPOST http loads self endpoint post_data params p).2.(sent)
    = (p.(sent) ++ [req])%list
    /\ req.(req_method) = POST
    /\ req.(req_data) = Some post_data.
Proof.
  intros Ht. rewrite DoPOST_run, _FetchResponse_state.
  eexists. split; [reflexivity|]. cbn. by rewrite Ht.
Qed.

(** The client's own encoder, which no method calls, would send the same
    fields as the encoding modelled from the spec. *)
Lemma encoded_items_as_specified py_unicode (form : gmap string pyval) :
  encoded_items py_unicode form = encoded_body (_Encode py_unicode) form.
Proof. reflexivity. Qed.

Lemma lookup_encoded_body text_of (form : gmap string pyval) k :
  encoded_body text_of form !! k =
  match form !! k with
  | Some VNone | None => None
  | Some v => Some (text_of v)
  end.
Proof.
  unfold encoded_body. rewrite lookup_omap.
  by destruct (form !! k) as [[]|].
Qed.

(** C8: for every non-empty form given to [DoPOST], the form reaches the
    HTTP library as it is in a POST, and in the encoded body every entry
    whose value is [None] is dropped (not sent as an empty text), every
    other entry is sent as the UTF-8 text of its value, and nothing else is
    sent. *)
Theorem C8_None_dropped_values_as_text {World}
    (http : Request -> World -> (RequestException + Response) * World)
    (loads : string -> option pyval) (text_of : pyval -> string)
    self endpoint (form : gmap string pyval) params (p : Process World) :
  form <> ∅ ->
  exists req body,
    (DoPOST http loads self endpoint (VDict form) params p).2.(sent)
    = (p.(sent) ++ [req])%list
    /\ req.(req_method) = POST
    /\ req.(req_data) = Some (VDict form)
    /\ request_body text_of req = Some body
    /\ (forall k, form !! k = Some VNone -> body !! k = None)
    /\ (forall k v, form !! k = Some v -> v <> VNone ->
          body !! k = Some (text_of v))
    /\ (forall k, form !! k = None -> body !! k = None).
Proof.
  intros Hform.
  destruct (DoPOST_data_unchanged http loads self endpoint (VDict form)
              params p) as (req & Hs & Hm & Hd).
  { cbn. by rewrite bool_decide_false. }
  exists req, (encoded_body text_of form).
  split; [exact Hs|]. split; [exact Hm|]. split; [exact Hd|].
  split; [unfold request_body; by rewrite Hd|].
  split; [|split].
  - intros k Hk. by rewrite lookup_encoded_body, Hk.
  - intros k v Hk Hv. rewrite lookup_encoded_body, Hk. by destruct v.
  - intros k Hk. by rewrite lookup_encoded_body, Hk.
Qed.

(** [DoPOST('cancel-drink', {'id': None, 'spilled': False})]: the body has
    [spilled] with the text [False] and has no [id]. *)
Lemma C8_None_dropped_values_as_text_witness :
  exists req body,
    (DoPOST http_refused loads_none local_client "cancel-drink"
       (VDict form_with_None) VNone fresh).2.(sent) = [req]
    /\ request_body sample_text req = Some body
    /\ body !! "id" = None
    /\ body !! "spilled" = Some "False".
Proof.
  destruct (C8_None_dropped_values_as_text http_refused loads_none sample_text
              local_client "cancel-drink" form_with_None VNone fresh)
    as (req & body & Hs & _ & _ & Hb & Hnone & Htext & _).
  - apply insert_non_empty.
  - exists req, body. split; [exact Hs|]. split; [exact Hb|]. split.
    + apply Hnone. reflexivity.
    + apply (Htext "spilled" (VBool false)); [reflexivity|discriminate].
Defined.

(** ** C9: the request timeout *)

(** C9, as stated, fails: the same client applies 10.0 seconds in a process
    started with the default flags and 2.5 seconds in one started with
    [--api_timeout=2.5]; no timeout belongs to the client. *)
Lemma C9_timeout_is_not_per_client :
  last_timeout (DoGET http_refused loads_none local_client "taps" VNone fresh).2
  = Some float_10_0
  /\ last_timeout
       (DoGET http_refused loads_none local_client "taps" VNone fresh_2_5).2
     = Some float_2_5
  /\ ~ (exists timeout_of : Client -> spec_float,
          forall self (p : Process unit),
            last_timeout (DoGET http_refused loads_none self "taps" VNone p).2
            = Some (timeout_of self)).
Proof.
  split; [reflexivity|]. split; [reflexivity|].
  intros [timeout_of H].
  pose proof (H local_client fresh) as H1.
  pose proof (H local_client fresh_2_5) as H2.
  vm_compute in H1, H2. congruence.
Qed.

(** C9 (amended): the request timeout is process-wide configuration, the
    flag [api_timeout] with default 10.0 seconds, and not part of a client:
    constructing a client takes and stores only the base URL and the API
    key and changes nothing; no call on a client changes the flag; and
    every request applies the value of the flag, whichever client issues
    it. *)
Theorem C9_timeout_is_the_flag {World}
    (http : Request -> World -> (RequestException + Response) * World)
    (now : World -> datetime) (mktime : struct_tm -> Z)
    (loads : string -> option pyval) :
  (forall settings, (default_FLAGS settings).(api_timeout) = float_10_0)
  /\ (forall url key (p : Process World),
        __init__ url key p
        = (Return {| _api_url := default p.(FLAGS).(api_url) url;
                     _api_key := default p.(FLAGS).(api_key) key |}, p))
  /\ (forall self endpoint params post_data (p : Process World),
        last_timeout (_FetchResponse http loads self endpoint params post_data p).2
        = Some p.(FLAGS).(api_timeout))
  /\ (forall cs self (p : Process World),
      exists reqs,
        (session http now mktime loads cs self p).2.(sent) = (p.(sent) ++ reqs)%list
        /\ (session http now mktime loads cs self p).2.(FLAGS) = p.(FLAGS)
        /\ Forall (fun req => req.(req_timeout) = p.(FLAGS).(api_timeout)) reqs).
Proof.
  split; [done|]. split; [|split].
  - intros [u|] [k|] p; reflexivity.
  - intros. rewrite _FetchResponse_state. unfold last_timeout, after_request.
    cbn [sent]. by rewrite last_snoc.
  - intros cs self p.
    destruct (session_requests http now mktime loads cs self p)
      as (reqs & Hs & Hf & _ & Ht & _).
    by exists reqs.
Qed.

(** * Further properties of the decoder *)

Lemma existsb_VStr (key : string) (l : list pyval) :
  existsb (fun x => match x with VStr s => String.eqb key s | _ => false end) l
  = true <-> VStr key ∈ l.
Proof.
  rewrite existsb_exists. split.
  - intros (x & Hx & Hk). apply list_elem_of_In in Hx.
    destruct x; try discriminate. apply String.eqb_eq in Hk. by subst.
  - intros Hk. exists (VStr key). split; [by apply list_elem_of_In|].
    apply String.eqb_refl.
Qed.

Lemma existsb_VStr_false (key : string) (l : list pyval) :
  VStr key ∉ l ->
  existsb (fun x => match x with VStr s => String.eqb key s | _ => false end) l
  = false.
Proof.
  intros Hk. apply not_true_is_false. by rewrite existsb_VStr.
Qed.

(** X1: whenever the decoder returns, what it returns is the parsed body
    itself, and that value has no [error] in it and has [object] or
    [objects] in it (as a key, an element or a substring, whatever the
    value is). *)
Theorem X1_decode_success_invariant loads response v :
  decode_response loads response = Return v ->
  loads response.(text) = Some v
  /\ py_contains "error" v = Return false
  /\ (py_contains "object" v = Return true
      \/ py_contains "objects" v = Return true).
Proof.
  unfold decode_response, kbjson_loads.
  destruct (loads response.(text)) as [v0|]; [|discriminate].
  rewrite bind_Return.
  destruct (py_contains "error" v0) as [[|]|e] eqn:He;
    [ | |discriminate]; rewrite bind_Return.
  - destruct (py_getitem v0 "error") as [err|]; [|discriminate].
    rewrite bind_Return.
    destruct (py_get err "code" _) as [code|]; [|discriminate].
    rewrite bind_Return.
    destruct (py_get err "message" _) as [message|]; [|discriminate].
    rewrite bind_Return.
    by destruct (ErrorCodeToException code message).
  - destruct (py_contains "object" v0) as [[|]|e] eqn:Ho;
      [ | |discriminate]; rewrite bind_Return.
    + rewrite bind_Return. intros [= ->]. auto.
    + destruct (py_contains "objects" v0) as [[|]|e] eqn:Hos;
        [ | discriminate | discriminate ].
      rewrite bind_Return. intros [= ->]. auto.
Qed.

(** At [{"object": 1, "objects": []}]. *)
Lemma X1_decode_success_invariant_witness :
  (loads_only "o" (VDict env_both)) "o" = Some (VDict env_both)
  /\ py_contains "error" (VDict env_both) = Return false
  /\ (py_contains "object" (VDict env_both) = Return true
      \/ py_contains "objects" (VDict env_both) = Return true).
Proof.
  apply (X1_decode_success_invariant (loads_only "o" (VDict env_both))
           {| status_code := 200; text := "o" |} (VDict env_both)).
  vm_compute. reflexivity.
Defined.

(** X2: the HTTP status never changes what the decoder does: two responses
    with the same body decode alike, whatever their status codes. *)
Theorem X2_decode_ignores_status loads (s1 s2 : Z) (body : string) :
  decode_response loads {| status_code := s1; text := body |}
  = decode_response loads {| status_code := s2; text := body |}.
Proof.
  unfold decode_response, kbjson_loads. cbn [text status_code].
  destruct (loads body) as [v|]; [|reflexivity]. rewrite !bind_Return.
  destruct (py_contains "error" v) as [[|]|e]; [ |reflexivity|reflexivity].
  rewrite !bind_Return.
  destruct (py_getitem v "error") as [err|]; [|reflexivity].
  rewrite !bind_Return.
  destruct err; try reflexivity.
  cbn [py_get]. rewrite !bind_Return.
  by destruct (d !! "code").
Qed.

(** X3: a body that is not a JSON object.  A scalar raises [TypeError].
    A JSON array raises [TypeError] if the string [error] is one of its
    elements; otherwise it is returned as a result if [object] or
    [objects] is one of its elements, and is an invalid response if
    neither is. *)
Theorem X3_decode_non_object_body loads response :
  (forall v, loads response.(text) = Some v -> is_scalar v = true ->
     decode_response loads response
     = Raise (TypeError "argument is not iterable"))
  /\ (forall l, loads response.(text) = Some (VList l) ->
        VStr "error" ∈ l ->
        decode_response loads response
        = Raise (TypeError "list indices must be integers, not str"))
  /\ (forall l, loads response.(text) = Some (VList l) ->
        VStr "error" ∉ l -> VStr "object" ∈ l \/ VStr "objects" ∈ l ->
        decode_response loads response = Return (VList l))
  /\ (forall l, loads response.(text) = Some (VList l) ->
        VStr "error" ∉ l -> VStr "object" ∉ l -> VStr "objects" ∉ l ->
        decode_response loads response = Raise invalid_response).
Proof.
  unfold decode_response, kbjson_loads.
  split; [|split; [|split]].
  - intros v -> Hv. by destruct v.
  - intros l -> He. rewrite bind_Return. cbn [py_contains].
    apply existsb_VStr in He. by rewrite He.
  - intros l -> He Ho. rewrite bind_Return. cbn [py_contains].
    rewrite (existsb_VStr_false _ _ He), !bind_Return.
    destruct Ho as [Ho|Ho]; apply existsb_VStr in Ho.
    + by rewrite Ho.
    + rewrite Ho.
      match goal with |- context [if ?b then _ else _] => destruct b end;
        reflexivity.
  - intros l -> He Ho Hos. rewrite bind_Return. cbn [py_contains].
    by rewrite (existsb_VStr_false _ _ He), !bind_Return,
      (existsb_VStr_false _ _ Ho), !bind_Return, (existsb_VStr_false _ _ Hos).
Qed.

(** The body [null] raises [TypeError]; the body [["object", 1]] is
    returned as it is. *)
Lemma X3_decode_non_object_body_witness :
  decode_response (loads_only "null" VNone)
    {| status_code := 200; text := "null" |}
  = Raise (TypeError "argument is not iterable")
  /\ decode_response (loads_only "a" (VList array_with_object))
       {| status_code := 200; text := "a" |}
     = Return (VList array_with_object).
Proof.
  split.
  - apply (proj1 (X3_decode_non_object_body (loads_only "null" VNone)
                    {| status_code := 200; text := "null" |}) VNone);
      reflexivity.
  - apply (proj1 (proj2 (proj2 (X3_decode_non_object_body
                    (loads_only "a" (VList array_with_object))
                    {| status_code := 200; text := "a" |})))
             array_with_object).
    + reflexivity.
    + unfold array_with_object. intros H.
      apply elem_of_cons in H as [H|H]; [discriminate|].
      apply elem_of_cons in H as [H|H]; [discriminate|].
      by apply elem_of_nil in H.
    + left. apply list_elem_of_here.
Defined.

(** X4: an envelope whose [error] is not an object raises
    [AttributeError]; one whose error object has an array or an object as
    its [code] raises [TypeError].  Neither raises an error of the
    taxonomy or the invalid-response [ValueError]. *)
Theorem X4_decode_malformed_error loads response (d : gmap string pyval) :
  loads response.(text) = Some (VDict d) ->
  (forall v, d !! "error" = Some v -> is_dict v = false ->
     decode_response loads response
     = Raise (AttributeError "object has no attribute 'get'"))
  /\ (forall (err : gmap string pyval) code,
        d !! "error" = Some (VDict err) -> err !! "code" = Some code ->
        hashable code = false ->
        exists msg, decode_response loads response = Raise (TypeError msg)).
Proof.
  intros Hl. rewrite (decode_response_dict _ _ _ Hl). split.
  - intros v -> Hv. by destruct v.
  - intros err code -> Hc Hh. cbn [py_get]. rewrite Hc, !bind_Return.
    destruct code; try discriminate; by eexists.
Qed.

(** At [{"error": {"code": ["a"]}}]. *)
Lemma X4_decode_malformed_error_witness :
  exists msg,
    decode_response (loads_only "e" (VDict {[ "error" := VDict err_list_code ]}))
      {| status_code := 400; text := "e" |} = Raise (TypeError msg).
Proof.
  apply (proj2 (X4_decode_malformed_error
                  (loads_only "e" (VDict {[ "error" := VDict err_list_code ]}))
                  {| status_code := 400; text := "e" |}
                  {[ "error" := VDict err_list_code ]} ltac:(reflexivity))
           err_list_code (VList [VStr "a"])); reflexivity.
Defined.

(** X5: the name of a class is its code: for every class of the taxonomy,
    the base class included, the code equal to the class's name is mapped
    back to that class, with the message kept; and no two classes share a
    name. *)
Theorem X5_class_name_round_trip :
  (forall (c : ErrorClass) (message : pyval),
     ErrorCodeToException (VStr (__name__ c)) message
     = Return (Raised c (ArgVal message)))
  /\ (forall c1 c2 : ErrorClass, __name__ c1 = __name__ c2 -> c1 = c2)
  /\ (forall c : ErrorClass,
        MAP_NAME_TO_EXCEPTION !! __name__ c
        = if decide (c = Error) then None else Some c).
Proof.
  split; [|split].
  - intros c message. by destruct c.
  - intros c1 c2. by destruct c1, c2.
  - intros c. by destruct c.
Qed.

(** X6: [Message()] never answers with an empty or false value: it is the
    stored message when that is true-valued, and otherwise the first line
    of the class's description, which no class leaves empty.  For an
    error built around another error, as [GetToken] builds one, the answer
    is that inner error itself, not a text. *)
Theorem X6_Message_is_never_empty :
  (forall e : ErrorInstance, truthy_arg (Message e) = true)
  /\ (forall e : ErrorInstance,
        truthy_arg (message_of e) = false ->
        Message e = ArgVal (VStr (default_summary (cls_of e))))
  /\ (forall cls inner, Message (Raised cls (ArgErr inner)) = ArgErr inner).
Proof.
  split; [|split].
  - intros [cls m]. unfold Message. cbn [message_of cls_of].
    destruct (truthy_arg m) eqn:Hm; [done|]. by destruct cls.
  - intros [cls m] Hm. unfold Message. rewrite Hm. cbn [cls_of].
    by rewrite first_line_doc.
  - reflexivity.
Qed.

(** * Further properties of the transport *)

(** X7: [DoPOST] with form data that is false-valued (an empty dict,
    [None]) does not post: it does exactly what [DoGET] does with the same
    endpoint and parameters. *)
Theorem X7_DoPOST_without_data_is_DoGET {World}
    (http : Request -> World -> (RequestException + Response) * World)
    (loads : string -> option pyval)
    self endpoint post_data params (p : Process World) :
  truthy post_data = false ->
  DoPOST http loads self endpoint post_data params p
  = DoGET http loads self endpoint params p.
Proof.
  intros Ht. rewrite DoPOST_run, DoGET_run, !_FetchResponse_run.
  unfold request_of. by rewrite Ht.
Qed.

(** [DoPOST('drinks', {})] is [DoGET('drinks')]. *)
Lemma X7_DoPOST_without_data_is_DoGET_witness :
  DoPOST http_refused loads_none local_client "drinks" (VDict ∅) VNone fresh
  = DoGET http_refused loads_none local_client "drinks" VNone fresh.
Proof.
  apply (X7_DoPOST_without_data_is_DoGET http_refused loads_none local_client
           "drinks" (VDict ∅) VNone fresh).
  reflexivity.
Defined.

Lemma append_String c (s t : string) : String c s ++ t = String c (s ++ t).
Proof. reflexivity. Qed.

Lemma rstrip_only_slashes n : rstrip "/" (slashes n) = "".
Proof. induction n as [|n IH]; [done|]. cbn [slashes rstrip]. by rewrite IH. Qed.

Lemma rstrip_app_slashes (s : string) n :
  rstrip "/" (s ++ slashes n) = rstrip "/" s.
Proof.
  induction s as [|c s IH]; [apply rstrip_only_slashes|].
  rewrite append_String. cbn [rstrip]. by rewrite IH.
Qed.

Lemma lstrip_slashes_app (s : string) m :
  lstrip "/" (slashes m ++ s) = lstrip "/" s.
Proof. induction m as [|m IH]; [done|]. cbn [slashes]. by rewrite append_String. Qed.

Lemma lstrip_only_slashes k : lstrip "/" (slashes k) = "".
Proof. by induction k. Qed.

Lemma lstrip_app_slashes (s : string) k :
  exists k', lstrip "/" (s ++ slashes k) = lstrip "/" s ++ slashes k'.
Proof.
  induction s as [|c s IH].
  - exists O. apply lstrip_only_slashes.
  - rewrite append_String. cbn [lstrip].
    destruct (in_chars c "/"); [exact IH|]. by exists k.
Qed.

Lemma rstrip_app_end chars (s t : string) :
  rstrip chars t <> "" -> rstrip chars (s ++ t) = s ++ rstrip chars t.
Proof.
  intros Ht. induction s as [|c s IH]; [done|].
  rewrite !append_String. cbn [rstrip]. rewrite IH.
  destruct (s ++ rstrip chars t) as [|c' r] eqn:Hs; [|done].
  destruct s; [by destruct Ht|discriminate].
Qed.

(** X8: the URL does not depend on how many slashes end the base or
    surround the endpoint: adding any number of them changes nothing. *)
Theorem X8_GetURL_ignores_extra_slashes base key endpoint (n m k : nat) :
  _GetURL {| _api_url := base ++ slashes n; _api_key := key |}
    (slashes m ++ endpoint ++ slashes k)
  = _GetURL {| _api_url := base; _api_key := key |} endpoint.
Proof.
  unfold _GetURL, strip. cbn [_api_url].
  rewrite rstrip_app_slashes, lstrip_slashes_app.
  destruct (lstrip_app_slashes endpoint k) as [k' ->].
  by rewrite rstrip_app_slashes.
Qed.

Lemma string_app_assoc (s t u : string) : (s ++ t) ++ u = s ++ t ++ u.
Proof.
  induction s as [|c s IH]; [done|]. by rewrite !append_String, IH.
Qed.

(** X9: a client constructed without arguments in a process with the
    default flags sends every request to the site's URL followed by
    [/api/] and the endpoint stripped of its outer slashes, with the
    default key.  The site's URL is used as the settings give it: one
    that ends in a slash leaves a double slash before [api]. *)
Theorem X9_default_client_URL {World} (settings : option Settings)
    (w : World) (log : list Request) (endpoint : string) :
  let p := {| FLAGS := default_FLAGS settings; world := w; sent := log |} in
  exists self,
    __init__ None None p = (Return self, p)
    /\ self.(_api_key) = _DEFAULT_KEY settings
    /\ _GetURL self endpoint
       = site_url settings ++ "/api/" ++ strip "/" endpoint.
Proof.
  cbv zeta. eexists. split; [reflexivity|]. split; [reflexivity|].
  unfold _GetURL, _DEFAULT_URL, site_url. cbn [_api_url FLAGS default_FLAGS api_url].
  unfold _DEFAULT_URL.
  destruct (settings ≫= KEGWEB_BASE_URL) as [base|]; [|reflexivity].
  rewrite rstrip_app_end by discriminate.
  change (rstrip "/" "/api/") with "/api".
  by rewrite string_app_assoc.
Qed.

(** ** The outcome of each call *)

Section OutcomeFacts.

Context {World : Type}.
Variable http : Request -> World -> (RequestException + Response) * World.
Variable now : World -> datetime.
Variable mktime : struct_tm -> Z.
Variable loads : string -> option pyval.

Lemma _FetchResponse_outcome self endpoint params post_data (p : Process World) :
  (_FetchResponse http loads self endpoint params post_data p).1 =
  match (http (request_of p.(FLAGS) self endpoint params post_data)
           p.(world)).1 with
  | inl e => Raise (ExcRequests e)
  | inr response => decode_response loads response
  end.
Proof.
  rewrite _FetchResponse_run. cbv zeta.
  by destruct (http _ _) as [[e|response] w].
Qed.

Lemma io_bind_lift_outcome {A B} (m : io World A) (g : A -> result B)
    (p : Process World) :
  (io_bind m (fun r => lift (g r)) p).1 = (m p).1 ≫= g.
Proof. unfold io_bind, lift. by destruct (m p) as [[r|e] p']. Qed.

Lemma reinterpret_other (c : call) (r : result pyval) :
  is_GetToken c = false -> reinterpret c r = r.
Proof. intros Hc. unfold reinterpret. rewrite Hc. by destruct r as [v|[]]. Qed.

Lemma bind_Return_r {A} (r : result A) : r ≫= Return = r.
Proof. by destruct r. Qed.

(** One response, decoded, projected and (by [GetToken]) reinterpreted. *)
Lemma do_call_outcome (c : call) self (p : Process World) req :
  call_request mktime p.(FLAGS) (now p.(world)) self c = Some req ->
  outcome (do_call http now mktime loads c self p) =
  match (http req p.(world)).1 with
  | inl e => Raise (ExcRequests e)
  | inr response =>
      reinterpret c (decode_response loads response ≫= project c)
  end.
Proof.
  unfold outcome.
  destruct c as [| | |tap ticks vol user pt dur tok' sp sh| | | |dev tok| |];
    cbn [do_call call_request snd fst];
    try destruct (dates_ok pt (now p.(world))) eqn:Hd;
    intros [= <-];
    try (unfold CancelDrink, LogSensorReading, TapStatus, AllDrinks,
           AllSoundEvents;
         rewrite ?RecordDrink_run by done;
         rewrite ?io_bind_lift_outcome, ?DoGET_run,
           ?DoPOST_run, _FetchResponse_outcome;
         destruct (http _ _).1 as [e|response]; [reflexivity|];
         rewrite reinterpret_other by done;
         unfold project, call_projection; by rewrite ?bind_Return_r).
  unfold GetToken, try_except.
  pose proof (io_bind_lift_outcome
                (DoGET http loads self
                   ("auth-tokens/" ++ dev ++ "/" ++ tok) VNone)
                (fun r => py_getattr r "object") p) as Hb.
  destruct (io_bind _ _ p) as [r p'] eqn:Hio. cbn [fst] in Hb. subst r.
  rewrite DoGET_run, _FetchResponse_outcome.
  destruct (http _ _).1 as [e|response]; [reflexivity|].
  unfold project, call_projection, reinterpret. cbn [is_GetToken andb].
  destruct (decode_response loads response ≫= _) as [v|[[cls m]| | | | | |]];
    try reflexivity.
  by destruct cls.
Qed.

End OutcomeFacts.

(** X10: what a typed operation makes of a well-formed answer.  When the
    server's body is a JSON object without [error], an operation returns
    the envelope's entry it is after ([objects] for the three listing
    operations, [object] for the others); when the envelope has only the
    other entry, the operation raises [AttributeError]; when it has
    neither, the decoder's invalid-response error comes through. *)
Theorem X10_operation_projects_envelope {World}
    (http : Request -> World -> (RequestException + Response) * World)
    (now : World -> datetime) (mktime : struct_tm -> Z)
    (loads : string -> option pyval)
    (c : call) self (p : Process World) req response
    (d : gmap string pyval) field :
  call_request mktime p.(FLAGS) (now p.(world)) self c = Some req ->
  (http req p.(world)).1 = inr response ->
  loads response.(text) = Some (VDict d) ->
  d !! "error" = None ->
  call_projection c = Some field ->
  outcome (do_call http now mktime loads c self p) =
  match d !! field with
  | Some v => Return v
  | None =>
      match d !! "object", d !! "objects" with
      | None, None => Raise invalid_response
      | _, _ => Raise (AttributeError field)
      end
  end.
Proof.
  intros Hreq Hhttp Hl He Hf.
  rewrite (do_call_outcome _ _ _ _ _ _ _ _ Hreq), Hhttp.
  rewrite (decode_response_dict _ _ _ Hl), He.
  unfold project. rewrite Hf.
  assert (Hfield : field = "object" \/ field = "objects").
  { destruct c; cbn in Hf; try discriminate; injection Hf as <-; auto. }
  unfold reinterpret.
  destruct Hfield as [-> | ->];
    destruct (d !! "object") as [o|] eqn:Ho,
             (d !! "objects") as [os|] eqn:Hos;
    cbn [mbind result_bind py_getattr]; rewrite ?Ho, ?Hos; try reflexivity.
Qed.

(** [TapStatus] against a server that answers [{"object": {"id": 7}}]. *)
Lemma X10_operation_projects_envelope_witness :
  outcome (do_call (http_const {| status_code := 200; text := "o" |})
             (fun _ => epoch) mktime_utc (loads_only "o" (VDict env_singular))
             CallTapStatus local_client fresh)
  = Raise (AttributeError "objects").
Proof.
  apply (X10_operation_projects_envelope
           (http_const {| status_code := 200; text := "o" |})
           (fun _ => epoch) mktime_utc (loads_only "o" (VDict env_singular))
           CallTapStatus local_client fresh
           (request_of fresh.(FLAGS) local_client "taps" VNone VNone)
           {| status_code := 200; text := "o" |} env_singular "objects");
    reflexivity.
Defined.

(** X11: when the HTTP library cannot deliver a response, every operation
    raises the library's exception as it is: none turns it into an error
    of the taxonomy, and [GetToken] does not turn it into [NotFoundError]. *)
Theorem X11_transport_failure_from_any_call {World}
    (http : Request -> World -> (RequestException + Response) * World)
    (now : World -> datetime) (mktime : struct_tm -> Z)
    (loads : string -> option pyval)
    (c : call) self (p : Process World) req e :
  call_request mktime p.(FLAGS) (now p.(world)) self c = Some req ->
  (http req p.(world)).1 = inl e ->
  outcome (do_call http now mktime loads c self p) = Raise (ExcRequests e).
Proof.
  intros Hreq Hhttp.
  by rewrite (do_call_outcome _ _ _ _ _ _ _ _ Hreq), Hhttp.
Qed.

(** [GetToken] while the server refuses connections. *)
Lemma X11_transport_failure_from_any_call_witness :
  outcome (do_call http_refused (fun _ => epoch) mktime_utc loads_none
             (CallGetToken "core.rfid" "deadbeef") local_client fresh)
  = Raise (ExcRequests (ConnectionError "Connection refused")).
Proof.
  apply (X11_transport_failure_from_any_call http_refused (fun _ => epoch) mktime_utc
           loads_none (CallGetToken "core.rfid" "deadbeef") local_client fresh
           (request_of fresh.(FLAGS) local_client
              "auth-tokens/core.rfid/deadbeef" VNone VNone));
    reflexivity.
Defined.

(** X12: whatever the decoder raises comes out of an operation unchanged:
    the server's error keeps its kind and message, a malformed body its
    [ValueError].  The one exception is a [ServerError] in [GetToken]. *)
Theorem X12_decoder_errors_pass_unchanged {World}
    (http : Request -> World -> (RequestException + Response) * World)
    (now : World -> datetime) (mktime : struct_tm -> Z)
    (loads : string -> option pyval)
    (c : call) self (p : Process World) req response x :
  call_request mktime p.(FLAGS) (now p.(world)) self c = Some req ->
  (http req p.(world)).1 = inr response ->
  decode_response loads response = Raise x ->
  is_GetToken c = false
    \/ (forall e, x = ExcApi e -> cls_of e <> ServerError) ->
  outcome (do_call http now mktime loads c self p) = Raise x.
Proof.
  intros Hreq Hhttp Hd Hc.
  rewrite (do_call_outcome _ _ _ _ _ _ _ _ Hreq), Hhttp, Hd, bind_Raise.
  destruct Hc as [Hc|Hx]; [by apply reinterpret_other|].
  unfold reinterpret. destruct x as [e| | | | | |]; try reflexivity.
  rewrite bool_decide_false by (by apply Hx). by rewrite andb_false_r.
Qed.

(** [AllDrinks] against a server that answers with a [ServerError]
    envelope raises that [ServerError]. *)
Lemma X12_decoder_errors_pass_unchanged_witness :
  outcome (do_call (http_const {| status_code := 500; text := "e" |})
             (fun _ => epoch) mktime_utc (loads_only "e" (VDict env_server_error))
             CallAllDrinks local_client fresh)
  = Raise (ExcApi (Raised ServerError (ArgVal (VStr "oops")))).
Proof.
  apply (X12_decoder_errors_pass_unchanged
           (http_const {| status_code := 500; text := "e" |})
           (fun _ => epoch) mktime_utc (loads_only "e" (VDict env_server_error))
           CallAllDrinks local_client fresh
           (request_of fresh.(FLAGS) local_client "drinks" VNone VNone)
           {| status_code := 500; text := "e" |}).
  - reflexivity.
  - reflexivity.
  - vm_compute. reflexivity.
  - by left.
Defined.

(** * Further properties of the operations and of sessions *)

(** X13: [CancelDrink] posts a form with exactly the two fields [id] and
    [spilled], the latter also when it is false (where [RecordDrink]
    leaves it out); [LogSensorReading] posts a form with the single field
    [temp_c], and what it sends and returns is the same whatever [when]
    is. *)
Theorem X13_CancelDrink_and_LogSensorReading_forms {World}
    (http : Request -> World -> (RequestException + Response) * World)
    (loads : string -> option pyval) self (p : Process World) :
  (forall seqn spilled,
     exists form : gmap string pyval,
       (CancelDrink http loads self seqn spilled p).2.(sent)
       = (p.(sent) ++
          [ {| req_method := POST;
               req_url := _GetURL self "/cancel-drink";
               req_params := VNone;
               req_data := Some (VDict form);
               req_headers := {[ "X-Kegbot-Api-Key" := self.(_api_key) ]};
               req_timeout := p.(FLAGS).(api_timeout) |} ])%list
       /\ form !! "id" = Some (VInt seqn)
       /\ form !! "spilled" = Some (VBool spilled)
       /\ dom form = {[ "id"; "spilled" ]})
  /\ (forall sensor_name temperature when,
       (LogSensorReading http loads self sensor_name temperature when p).2.(sent)
       = (p.(sent) ++
          [ {| req_method := POST;
               req_url := _GetURL self ("/thermo-sensors/" ++ sensor_name);
               req_params := VNone;
               req_data := Some (VDict {[ "temp_c" := VFloat temperature ]});
               req_headers := {[ "X-Kegbot-Api-Key" := self.(_api_key) ]};
               req_timeout := p.(FLAGS).(api_timeout) |} ])%list)
  /\ (forall sensor_name temperature when when',
       LogSensorReading http loads self sensor_name temperature when p
       = LogSensorReading http loads self sensor_name temperature when' p).
Proof.
  split; [|split].
  - intros seqn spilled. eexists. split; [|split; [|split]].
    + unfold CancelDrink.
      rewrite io_bind_lift_state, DoPOST_run, _FetchResponse_state.
      unfold after_request, request_of. cbn [sent truthy].
      rewrite bool_decide_false by apply insert_non_empty. reflexivity.
    + by rewrite lookup_insert_ne, lookup_singleton_eq.
    + by rewrite lookup_insert_eq.
    + rewrite dom_insert_L, dom_singleton_L. set_solver.
  - intros sensor_name temperature when. unfold LogSensorReading.
    rewrite io_bind_lift_state, DoPOST_run, _FetchResponse_state.
    unfold after_request, request_of. cbn [sent truthy].
    rewrite bool_decide_false; [reflexivity|].
    apply (insert_non_empty (M:=gmap string)).
  - reflexivity.
Qed.

Lemma call_request_shape mktime flags t self c :
  match call_request mktime flags t self c with
  | Some req =>
      sets_key c = false
      /\ exists endpoint params post_data,
           req = request_of flags self endpoint params post_data
  | None => sets_key c = true \/ (sets_key c = false /\ reads_clock c = true)
  end.
Proof.
  destruct c as [| | |tap ticks vol user pt dur tok sp sh| | | | | |]; cbn;
    try destruct (dates_ok pt t) eqn:Hd; auto;
    try (split; [done|by eexists _, _, _]).
  destruct pt; [auto|discriminate].
Qed.

Lemma call_request_without_clock mktime mktime' flags t t' self c :
  reads_clock c = false ->
  call_request mktime flags t self c = call_request mktime' flags t' self c.
Proof.
  destruct c as [| | |tap ticks vol user [pt|] dur tok sp sh| | | | | |];
    try done.
Qed.

Lemma request_of_well_formed flags self endpoint params post_data :
  well_formed_request (request_of flags self endpoint params post_data).
Proof.
  unfold well_formed_request, request_of. cbn.
  by destruct (truthy post_data) eqn:Ht.
Qed.

Section SessionShape.

Context {World : Type}.
Variable http : Request -> World -> (RequestException + Response) * World.
Variable now : World -> datetime.
Variable mktime : struct_tm -> Z.
Variable loads : string -> option pyval.

(** The client after a session, and the shape of every request it made. *)
Lemma session_shape cs self (p : Process World) :
  exists reqs,
    (session http now mktime loads cs self p).2.(sent)
    = (p.(sent) ++ reqs)%list
    /\ (session http now mktime loads cs self p).1
       = {| _api_url := self.(_api_url);
            _api_key := final_key cs self.(_api_key) |}
    /\ (length reqs <= length (filter (fun c => sets_key c = false) cs))%nat
    /\ (Forall (fun c => reads_clock c = false) cs ->
        length reqs = length (filter (fun c => sets_key c = false) cs))
    /\ Forall (fun req => exists key endpoint params post_data,
                 req = request_of p.(FLAGS)
                         {| _api_url := self.(_api_url); _api_key := key |}
                         endpoint params post_data) reqs.
Proof.
  revert self p. induction cs as [|c cs IH]; intros self p.
  - exists []. cbn. rewrite app_nil_r. by destruct self.
  - rewrite session_cons, do_call_client.
    destruct (do_call_state http now mktime loads c self p) as (w & ->).
    pose proof (call_request_shape mktime p.(FLAGS) (now p.(world)) self c)
      as Hc.
    destruct (call_request mktime p.(FLAGS) (now p.(world)) self c) as [req|].
    + destruct Hc as (Hc & ep & params & data & ->).
      rewrite filter_cons_True by done.
      destruct c; try discriminate;
        match goal with |- context [session _ _ _ _ cs self ?q] =>
          destruct (IH self q) as (reqs & -> & -> & Hn & Heq & Hs) end;
        eexists (_ :: reqs); cbn [FLAGS sent option_list final_key length];
        (split; [by rewrite <- app_assoc|]); (split; [done|]);
        (split; [lia|]);
        (split; [intros Hcs; apply Forall_cons in Hcs as [_ Hcs];
                 by rewrite Heq|]);
        (constructor; [|exact Hs]); destruct self; by eexists _, _, _, _.
    + destruct Hc as [Hc|[Hc Hr]].
      * destruct c; try discriminate. cbn [option_list final_key].
        rewrite filter_cons_False by done.
        match goal with |- context [session _ _ _ _ cs ?s ?q] =>
          destruct (IH s q) as (reqs & -> & -> & Hn & Heq & Hs) end.
        exists reqs. cbn [FLAGS sent _api_url _api_key SetAuthToken].
        rewrite app_nil_r. repeat split; try done.
        intros Hcs. apply Forall_cons in Hcs as [_ Hcs]. auto.
      * rewrite filter_cons_True by done.
        destruct c; try discriminate. cbn [option_list final_key].
        match goal with |- context [session _ _ _ _ cs ?s ?q] =>
          destruct (IH s q) as (reqs & -> & -> & Hn & Heq & Hs) end.
        exists reqs. cbn [FLAGS sent length]. rewrite app_nil_r.
        repeat split; try done; [lia|].
        intros Hcs. apply Forall_cons in Hcs as [Hcr _]. congruence.
Qed.

Lemma do_call_sends (c : call) self (p : Process World) :
  exists reqs,
    (do_call http now mktime loads c self p).2.2.(sent)
    = (p.(sent) ++ reqs)%list
    /\ length reqs = if sends c (now p.(world)) then 1%nat else 0%nat.
Proof.
  destruct (do_call_state http now mktime loads c self p) as (w & ->).
  eexists. split; [reflexivity|].
  destruct c as [| | |tap ticks vol user pt dur tok sp sh| | | | | |];
    cbn; try done.
  by destruct (dates_ok pt (now p.(world))).
Qed.

End SessionShape.

(** X14: a call hands the HTTP library exactly one request, whether it
    then returns or raises, unless it is [SetAuthToken] or a [RecordDrink]
    that [strftime] stops (a [pour_time], or a clock, before the year
    1900), which hand it none.  So a sequence of calls only adds to the
    log, at most one request for each call other than [SetAuthToken]:
    nothing is retried; and exactly one for each when no [RecordDrink] is
    given a [pour_time]. *)
Theorem X14_one_request_per_call {World}
    (http : Request -> World -> (RequestException + Response) * World)
    (now : World -> datetime) (mktime : struct_tm -> Z)
    (loads : string -> option pyval) :
  (forall c self (p : Process World),
     exists reqs,
       (do_call http now mktime loads c self p).2.2.(sent)
       = (p.(sent) ++ reqs)%list
       /\ length reqs = if sends c (now p.(world)) then 1%nat else 0%nat)
  /\ (forall cs self (p : Process World),
     exists reqs,
       (session http now mktime loads cs self p).2.(sent)
       = (p.(sent) ++ reqs)%list
       /\ (length reqs
           <= length (filter (fun c => sets_key c = false) cs))%nat
       /\ (Forall (fun c => reads_clock c = false) cs ->
           length reqs = length (filter (fun c => sets_key c = false) cs))).
Proof.
  split.
  - apply do_call_sends.
  - intros cs self p.
    destruct (session_shape http now mktime loads cs self p)
      as (reqs & Hs & _ & Hn & Heq & _).
    by exists reqs.
Qed.

(** X15: after any session the client has the base URL it started with
    and the last key that was set (its own if none was); and every
    request of the session went to that base URL joined with some
    endpoint. *)
Theorem X15_session_keeps_base_URL {World}
    (http : Request -> World -> (RequestException + Response) * World)
    (now : World -> datetime) (mktime : struct_tm -> Z)
    (loads : string -> option pyval)
    cs self (p : Process World) :
  (session http now mktime loads cs self p).1
  = {| _api_url := self.(_api_url);
       _api_key := final_key cs self.(_api_key) |}
  /\ exists reqs,
       (session http now mktime loads cs self p).2.(sent) = (p.(sent) ++ reqs)%list
       /\ Forall (fun req => exists endpoint,
                    req.(req_url) = rstrip "/" self.(_api_url) ++ "/"
                                      ++ strip "/" endpoint) reqs.
Proof.
  destruct (session_shape http now mktime loads cs self p)
    as (reqs & Hs & Hc & _ & _ & Hf).
  split; [exact Hc|]. exists reqs. split; [exact Hs|].
  eapply Forall_impl; [exact Hf|].
  intros req (key & ep & params & data & ->). by exists ep.
Qed.

(** X16: every request a session makes is either a GET without a body or
    a POST with a true-valued body: no GET carries form data and no POST
    goes out empty. *)
Theorem X16_method_matches_body {World}
    (http : Request -> World -> (RequestException + Response) * World)
    (now : World -> datetime) (mktime : struct_tm -> Z)
    (loads : string -> option pyval)
    cs self (p : Process World) :
  exists reqs,
    (session http now mktime loads cs self p).2.(sent) = (p.(sent) ++ reqs)%list
    /\ Forall well_formed_request reqs.
Proof.
  destruct (session_shape http now mktime loads cs self p)
    as (reqs & Hs & _ & _ & _ & Hf).
  exists reqs. split; [exact Hs|].
  eapply Forall_impl; [exact Hf|].
  intros req (key & ep & params & data & ->). apply request_of_well_formed.
Qed.

(** X17: the client keeps nothing from one call to the next but its URL
    and key: the requests of a session are the same whatever the server
    answers, whether the calls succeed or fail, and however the bodies
    parse, as long as the flags are the same and no call reads the clock
    (no [RecordDrink] is given a [pour_time]). *)
Theorem X17_requests_do_not_depend_on_answers {World1 World2}
    (http1 : Request -> World1 -> (RequestException + Response) * World1)
    (http2 : Request -> World2 -> (RequestException + Response) * World2)
    (now1 : World1 -> datetime) (now2 : World2 -> datetime)
    (mktime1 mktime2 : struct_tm -> Z)
    (loads1 loads2 : string -> option pyval)
    cs self (p1 : Process World1) (p2 : Process World2) :
  p1.(FLAGS) = p2.(FLAGS) ->
  Forall (fun c => reads_clock c = false) cs ->
  exists reqs,
    (session http1 now1 mktime1 loads1 cs self p1).2.(sent)
    = (p1.(sent) ++ reqs)%list
    /\ (session http2 now2 mktime2 loads2 cs self p2).2.(sent)
       = (p2.(sent) ++ reqs)%list.
Proof.
  intros Hf Hcs. revert self p1 p2 Hf.
  induction Hcs as [|c cs Hc _ IH]; intros self p1 p2 Hf.
  - exists []. cbn. by rewrite !app_nil_r.
  - rewrite !session_cons, !do_call_client.
    destruct (do_call_state http1 now1 mktime1 loads1 c self p1) as (w1 & ->).
    destruct (do_call_state http2 now2 mktime2 loads2 c self p2) as (w2 & ->).
    rewrite <- Hf,
      (call_request_without_clock mktime2 mktime1 _ (now2 p2.(world))
         (now1 p1.(world)) _ _ Hc).
    match goal with
    | |- context [session http1 _ _ _ cs ?s ?q1] =>
        match goal with
        | |- context [session http2 _ _ _ cs s ?q2] =>
            destruct (IH s q1 q2 eq_refl) as (reqs & -> & ->)
        end
    end.
    exists (option_list
              (call_request mktime1 p1.(FLAGS) (now1 p1.(world)) self c)
              ++ reqs)%list.
    cbn [sent]. by rewrite !app_assoc.
Qed.

(** The sample session against a server that refuses every connection and
    against one that answers every request with a [ServerError]. *)
Lemma X17_requests_do_not_depend_on_answers_witness :
  (session http_refused (fun _ => epoch) mktime_utc loads_none
     sample_session local_client fresh).2.(sent)
  = (session (http_const {| status_code := 500; text := "e" |})
       (fun _ => epoch) mktime_utc (loads_only "e" (VDict env_server_error))
       sample_session local_client fresh).2.(sent).
Proof.
  destruct (X17_requests_do_not_depend_on_answers
              http_refused (http_const {| status_code := 500; text := "e" |})
              (fun _ => epoch) (fun _ => epoch) mktime_utc mktime_utc
              loads_none (loads_only "e" (VDict env_server_error))
              sample_session local_client fresh fresh eq_refl)
    as (reqs & H1 & H2).
  - repeat constructor.
  - rewrite H1, H2. reflexivity.
Defined.
